(** * The HumanEval executor ([executor.py])

    A shallow embedding of [timeout_handler], [execute_code] and [main].

    The two functions are thin control flow around three services of the
    Python runtime: [exec], the [signal] alarm and the [json] codec.  The
    control flow (the [try]/[except]/[finally] statements, the [with]
    blocks, the mutation of the [result] dictionary) is modelled here
    statement by statement in a small state-and-exception monad.  The
    runtime services are an interface, [Runtime]; every general theorem
    holds for every runtime.  [MiniPy], further down, is one runtime: an
    interpreter for a small fragment of Python, used to run the executor
    on concrete sources.

    What the model takes the evaluated code to be able to do:
    - it runs in the process of the executor, and a run is any change of
      the process state it can reach: it can write to, empty, close or
      rebind [sys.stdout] and [sys.stderr], write to the real standard
      output and error or close them, use up, cancel or set the alarm,
      replace the handler of SIGALRM, and it can end normally, end with
      any exception, or never end;
    - the two [StringIO] buffers are within its reach, as [sys.stdout]
      and [sys.stderr]: besides writing to them and closing them it can
      set a [getvalue] of its own on either object, so that the calls at
      lines 50 and 67 return any value or raise any exception;
    - [str(e)] of an exception it raised can itself raise;
    - the functions it leaves behind in this way, [getvalue] and
      [__str__], are taken to return or to raise and to do nothing else;
    - it does not reach into the frames of its caller, so that the local
      dictionary [result] of [execute_code] is out of its reach, and it
      does not rebind the names the executor itself uses ([exec],
      [print], [str], the [json], [signal], [contextlib] and [traceback]
      functions).

    Further conventions:
    - a Python [str] is a [string]; its characters are read as the code
      points 0..255, and the standard input is the text that
      [sys.stdin.read()] returns;
    - time passes only inside [exec]: the alarm is never delivered between
      two statements of [execute_code] itself. *)

From Stdlib Require Import String Ascii List ZArith NArith Bool Lia.
From Stdlib Require Import DecimalString.
Import ListNotations.
Open Scope string_scope.

(** ** Characters that a string literal cannot hold *)

Definition dq : string := String "034"%char EmptyString.
Definition bs : string := String "092"%char EmptyString.
Definition nl : string := String "010"%char EmptyString.

(** ** Python values *)

Set Warnings "-register-all".

Inductive PyVal : Type :=
| VNone
| VBool (b : bool)
| VInt (z : Z)
| VFloat (lit : string)
| VStr (s : string)
| VList (l : list PyVal)
| VDict (d : list (string * PyVal)).

(** A [dict] with string keys, in insertion order. *)
Definition Dict := list (string * PyVal).

Fixpoint dict_get (d : Dict) (k : string) : option PyVal :=
  match d with
  | [] => None
  | (k', v) :: d' => if String.eqb k' k then Some v else dict_get d' k
  end.

(** [d[k] = v]: an existing key keeps its position. *)
Fixpoint dict_set (d : Dict) (k : string) (v : PyVal) : Dict :=
  match d with
  | [] => [(k, v)]
  | (k', v') :: d' =>
      if String.eqb k' k then (k', v) :: d' else (k', v') :: dict_set d' k v
  end.

Definition type_name (v : PyVal) : string :=
  match v with
  | VNone => "NoneType"
  | VBool _ => "bool"
  | VInt _ => "int"
  | VFloat _ => "float"
  | VStr _ => "str"
  | VList _ => "list"
  | VDict _ => "dict"
  end.

(** [a or b] on strings: the empty string is falsy. *)
Definition str_or (a b : string) : string :=
  match a with EmptyString => b | _ => a end.

(** ** Exceptions *)

Inductive PyClass : Type :=
| BaseException
| Exception
| SyntaxError
| IndentationError
| OSError
| TimeoutError
| AssertionError
| ValueError
| JSONDecodeError
| TypeError
| AttributeError
| NameError
| RuntimeError
| SystemExit
| KeyboardInterrupt
| GeneratorExit
| UserClass (name : string).

Definition PyClass_eq_dec (a b : PyClass) : {a = b} + {a <> b}.
Proof. decide equality. apply string_dec. Defined.

Definition class_eqb (a b : PyClass) : bool :=
  if PyClass_eq_dec a b then true else false.

(** An exception object: the method resolution order of its class, most
    derived first, and what [str(e)] does: it returns a text, or it
    raises. *)
Inductive PyExc : Type :=
| mkExc (mro : list PyClass) (text : StrRes)
with StrRes : Type :=
| Str (s : string)
| StrRaises (e : PyExc).

Definition exc_mro (e : PyExc) : list PyClass :=
  match e with mkExc mro _ => mro end.

Definition exc_str (e : PyExc) : StrRes :=
  match e with mkExc _ text => text end.

Definition isinstance (e : PyExc) (c : PyClass) : bool :=
  existsb (class_eqb c) (exc_mro e).

(** The built-in hierarchy.  A user class is taken to derive from
    [Exception]; richer user classes are given by their [exc_mro]. *)
Definition builtin_mro (c : PyClass) : list PyClass :=
  match c with
  | BaseException => [BaseException]
  | Exception => [Exception; BaseException]
  | SystemExit | KeyboardInterrupt | GeneratorExit => [c; BaseException]
  | IndentationError => [c; SyntaxError; Exception; BaseException]
  | TimeoutError => [c; OSError; Exception; BaseException]
  | JSONDecodeError => [c; ValueError; Exception; BaseException]
  | _ => [c; Exception; BaseException]
  end.

(** [Class(msg)] for a built-in class and a text. *)
Definition new_exc (c : PyClass) (msg : string) : PyExc :=
  mkExc (builtin_mro c) (Str msg).

(** What a failing [assert] statement raises: [AssertionError()] without a
    message, [AssertionError(msg)] with one; [msg] is the text of the
    message. *)
Definition assert_exc (msg : option string) : PyExc :=
  new_exc AssertionError (match msg with Some m => m | None => EmptyString end).

(** What a closed [StringIO] raises when it is read or written. *)
Definition closed_buffer_error : PyExc :=
  new_exc ValueError "I/O operation on closed file".

(** What a closed standard stream raises when it is written. *)
Definition closed_file_error : PyExc :=
  new_exc ValueError "I/O operation on closed file.".

(** ** Process state *)

(** What calling a signal handler does. *)
Inductive Signal : Type :=
| HReturns
| HRaises (e : PyExc).

(** [handler(signum, frame)]. *)
Definition Handler := nat -> unit -> Signal.

(** The objects [sys.stdout] and [sys.stderr] can point to: the two
    standard streams of the process and the two [StringIO] buffers of
    [execute_code]. *)
Inductive Stream : Type :=
| Fd1
| Fd2
| StdoutCapture
| StderrCapture.

(** What calling a method does that the evaluated code has set on an
    object: it returns a value or it raises. *)
Inductive Reply : Type :=
| Gives (v : PyVal)
| Throws (e : PyExc).

Record State : Type := mkState {
  (** the standard input; [None]: [sys.stdin] is [None] *)
  stdin : option string;
  (** what the process has written to its standard output, and whether
      that stream has been closed *)
  console_out : string;
  console_out_closed : bool;
  (** the same for its standard error *)
  console_err : string;
  console_err_closed : bool;
  sys_stdout : Stream;
  sys_stderr : Stream;
  (** the [signal] module: the handler of SIGALRM, the seconds left
      until the alarm, and whether SIGALRM has been delivered *)
  sigalrm_handler : option Handler;
  alarm : option N;
  alarm_fired : bool;
  (** the locals of [execute_code]: the dictionary, and the two
      [StringIO] objects: what each holds, whether it is closed, and the
      [getvalue] attribute set on the object, if any *)
  result : Dict;
  stdout_capture : string;
  stdout_closed : bool;
  stdout_planted : option Reply;
  stderr_capture : string;
  stderr_closed : bool;
  stderr_planted : option Reply
}.

Definition initial_state (input : option string) : State :=
  {| stdin := input;
     console_out := EmptyString; console_out_closed := false;
     console_err := EmptyString; console_err_closed := false;
     sys_stdout := Fd1; sys_stderr := Fd2;
     sigalrm_handler := None; alarm := None; alarm_fired := false;
     result := [];
     stdout_capture := EmptyString; stdout_closed := false;
     stdout_planted := None;
     stderr_capture := EmptyString; stderr_closed := false;
     stderr_planted := None |}.

Definition set_stdin (v : option string) (s : State) : State :=
  mkState v (console_out s) (console_out_closed s) (console_err s)
    (console_err_closed s) (sys_stdout s) (sys_stderr s) (sigalrm_handler s)
    (alarm s) (alarm_fired s) (result s) (stdout_capture s)
    (stdout_closed s) (stdout_planted s) (stderr_capture s)
    (stderr_closed s) (stderr_planted s).

Definition set_console_out (v : string) (s : State) : State :=
  mkState (stdin s) v (console_out_closed s) (console_err s)
    (console_err_closed s) (sys_stdout s) (sys_stderr s) (sigalrm_handler s)
    (alarm s) (alarm_fired s) (result s) (stdout_capture s)
    (stdout_closed s) (stdout_planted s) (stderr_capture s)
    (stderr_closed s) (stderr_planted s).

Definition set_console_out_closed (v : bool) (s : State) : State :=
  mkState (stdin s) (console_out s) v (console_err s) (console_err_closed s)
    (sys_stdout s) (sys_stderr s) (sigalrm_handler s) (alarm s)
    (alarm_fired s) (result s) (stdout_capture s) (stdout_closed s)
    (stdout_planted s) (stderr_capture s) (stderr_closed s)
    (stderr_planted s).

Definition set_console_err (v : string) (s : State) : State :=
  mkState (stdin s) (console_out s) (console_out_closed s) v
    (console_err_closed s) (sys_stdout s) (sys_stderr s) (sigalrm_handler s)
    (alarm s) (alarm_fired s) (result s) (stdout_capture s)
    (stdout_closed s) (stdout_planted s) (stderr_capture s)
    (stderr_closed s) (stderr_planted s).

Definition set_console_err_closed (v : bool) (s : State) : State :=
  mkState (stdin s) (console_out s) (console_out_closed s) (console_err s) v
    (sys_stdout s) (sys_stderr s) (sigalrm_handler s) (alarm s)
    (alarm_fired s) (result s) (stdout_capture s) (stdout_closed s)
    (stdout_planted s) (stderr_capture s) (stderr_closed s)
    (stderr_planted s).

Definition set_sys_stdout (v : Stream) (s : State) : State :=
  mkState (stdin s) (console_out s) (console_out_closed s) (console_err s)
    (console_err_closed s) v (sys_stderr s) (sigalrm_handler s) (alarm s)
    (alarm_fired s) (result s) (stdout_capture s) (stdout_closed s)
    (stdout_planted s) (stderr_capture s) (stderr_closed s)
    (stderr_planted s).

Definition set_sys_stderr (v : Stream) (s : State) : State :=
  mkState (stdin s) (console_out s) (console_out_closed s) (console_err s)
    (console_err_closed s) (sys_stdout s) v (sigalrm_handler s) (alarm s)
    (alarm_fired s) (result s) (stdout_capture s) (stdout_closed s)
    (stdout_planted s) (stderr_capture s) (stderr_closed s)
    (stderr_planted s).

Definition set_sigalrm_handler (v : option Handler) (s : State) : State :=
  mkState (stdin s) (console_out s) (console_out_closed s) (console_err s)
    (console_err_closed s) (sys_stdout s) (sys_stderr s) v (alarm s)
    (alarm_fired s) (result s) (stdout_capture s) (stdout_closed s)
    (stdout_planted s) (stderr_capture s) (stderr_closed s)
    (stderr_planted s).

Definition set_alarm (v : option N) (s : State) : State :=
  mkState (stdin s) (console_out s) (console_out_closed s) (console_err s)
    (console_err_closed s) (sys_stdout s) (sys_stderr s) (sigalrm_handler s)
    v (alarm_fired s) (result s) (stdout_capture s) (stdout_closed s)
    (stdout_planted s) (stderr_capture s) (stderr_closed s)
    (stderr_planted s).

Definition set_alarm_fired (v : bool) (s : State) : State :=
  mkState (stdin s) (console_out s) (console_out_closed s) (console_err s)
    (console_err_closed s) (sys_stdout s) (sys_stderr s) (sigalrm_handler s)
    (alarm s) v (result s) (stdout_capture s) (stdout_closed s)
    (stdout_planted s) (stderr_capture s) (stderr_closed s)
    (stderr_planted s).

Definition set_result (v : Dict) (s : State) : State :=
  mkState (stdin s) (console_out s) (console_out_closed s) (console_err s)
    (console_err_closed s) (sys_stdout s) (sys_stderr s) (sigalrm_handler s)
    (alarm s) (alarm_fired s) v (stdout_capture s) (stdout_closed s)
    (stdout_planted s) (stderr_capture s) (stderr_closed s)
    (stderr_planted s).

Definition set_stdout_capture (v : string) (s : State) : State :=
  mkState (stdin s) (console_out s) (console_out_closed s) (console_err s)
    (console_err_closed s) (sys_stdout s) (sys_stderr s) (sigalrm_handler s)
    (alarm s) (alarm_fired s) (result s) v (stdout_closed s)
    (stdout_planted s) (stderr_capture s) (stderr_closed s)
    (stderr_planted s).

Definition set_stdout_closed (v : bool) (s : State) : State :=
  mkState (stdin s) (console_out s) (console_out_closed s) (console_err s)
    (console_err_closed s) (sys_stdout s) (sys_stderr s) (sigalrm_handler s)
    (alarm s) (alarm_fired s) (result s) (stdout_capture s) v
    (stdout_planted s) (stderr_capture s) (stderr_closed s)
    (stderr_planted s).

Definition set_stdout_planted (v : option Reply) (s : State) : State :=
  mkState (stdin s) (console_out s) (console_out_closed s) (console_err s)
    (console_err_closed s) (sys_stdout s) (sys_stderr s) (sigalrm_handler s)
    (alarm s) (alarm_fired s) (result s) (stdout_capture s)
    (stdout_closed s) v (stderr_capture s) (stderr_closed s)
    (stderr_planted s).

Definition set_stderr_capture (v : string) (s : State) : State :=
  mkState (stdin s) (console_out s) (console_out_closed s) (console_err s)
    (console_err_closed s) (sys_stdout s) (sys_stderr s) (sigalrm_handler s)
    (alarm s) (alarm_fired s) (result s) (stdout_capture s)
    (stdout_closed s) (stdout_planted s) v (stderr_closed s)
    (stderr_planted s).

Definition set_stderr_closed (v : bool) (s : State) : State :=
  mkState (stdin s) (console_out s) (console_out_closed s) (console_err s)
    (console_err_closed s) (sys_stdout s) (sys_stderr s) (sigalrm_handler s)
    (alarm s) (alarm_fired s) (result s) (stdout_capture s)
    (stdout_closed s) (stdout_planted s) (stderr_capture s) v
    (stderr_planted s).

Definition set_stderr_planted (v : option Reply) (s : State) : State :=
  mkState (stdin s) (console_out s) (console_out_closed s) (console_err s)
    (console_err_closed s) (sys_stdout s) (sys_stderr s) (sigalrm_handler s)
    (alarm s) (alarm_fired s) (result s) (stdout_capture s)
    (stdout_closed s) (stdout_planted s) (stderr_capture s)
    (stderr_closed s) v.

(** [stream.closed] *)
Definition stream_closed (f : Stream) (s : State) : bool :=
  match f with
  | Fd1 => console_out_closed s
  | Fd2 => console_err_closed s
  | StdoutCapture => stdout_closed s
  | StderrCapture => stderr_closed s
  end.

(** The text goes to the end of what the stream holds. *)
Definition append_to (f : Stream) (text : string) (s : State) : State :=
  match f with
  | Fd1 => set_console_out (console_out s ++ text) s
  | Fd2 => set_console_err (console_err s ++ text) s
  | StdoutCapture => set_stdout_capture (stdout_capture s ++ text) s
  | StderrCapture => set_stderr_capture (stderr_capture s ++ text) s
  end.

(** [stream.close()] *)
Definition close_stream (f : Stream) (s : State) : State :=
  match f with
  | Fd1 => set_console_out_closed true s
  | Fd2 => set_console_err_closed true s
  | StdoutCapture => set_stdout_closed true s
  | StderrCapture => set_stderr_closed true s
  end.

(** [stream.getvalue = f], where calling [f] does [r]; the attribute is
    of no use on the standard streams, which are not read. *)
Definition plant (f : Stream) (r : Reply) (s : State) : State :=
  match f with
  | Fd1 | Fd2 => s
  | StdoutCapture => set_stdout_planted (Some r) s
  | StderrCapture => set_stderr_planted (Some r) s
  end.

(** What writing to or reading from the stream raises once it is
    closed. *)
Definition closed_error (f : Stream) : PyExc :=
  match f with
  | Fd1 | Fd2 => closed_file_error
  | StdoutCapture | StderrCapture => closed_buffer_error
  end.

(** ** The evaluator, as the runtime provides it *)

Inductive End : Type :=
| Returned
| Raised (e : PyExc).

(** One run of a code object: the namespace and the process state it
    leaves, and how it ended.  [NoReturn]: the run never hands control
    back. *)
Inductive Run (NS : Type) : Type :=
| Finished (ns : NS) (s : State) (c : End)
| NoReturn.
Arguments Finished {NS}.
Arguments NoReturn {NS}.

Record Runtime : Type := {
  Namespace : Type;
  CodeObj : Type;
  (** [{"__builtins__": __builtins__}] *)
  builtins_namespace : Namespace;
  (** [signal.SIGALRM], on the platforms that have it *)
  SIGALRM : option nat;
  (** the compile step of [exec]: a code object, or the exception that
      reports a source that does not compile *)
  py_compile : string -> CodeObj + PyExc;
  (** the run step of [exec], in a namespace and a process state *)
  py_run : CodeObj -> Namespace -> State -> Run Namespace;
  (** [traceback.format_exc()] while the exception is being handled *)
  format_exc : PyExc -> string;
  (** [json.loads] *)
  json_loads : string -> PyVal + PyExc
}.

(** ** The monad: state, exceptions, and runs that do not come back *)

Inductive Res (A : Type) : Type :=
| Ok (a : A) (s : State)
| Exc (e : PyExc) (s : State)
| Diverge.
Arguments Ok {A}.
Arguments Exc {A}.
Arguments Diverge {A}.

Definition M (A : Type) : Type := State -> Res A.

Definition ret {A} (a : A) : M A := fun s => Ok a s.

Definition bind {A B} (m : M A) (k : A -> M B) : M B :=
  fun s =>
    match m s with
    | Ok a s' => k a s'
    | Exc e s' => Exc e s'
    | Diverge => Diverge
    end.

Definition raise {A} (e : PyExc) : M A := fun s => Exc e s.

Definition get {A} (proj : State -> A) : M A := fun s => Ok (proj s) s.

Definition modify (f : State -> State) : M unit := fun s => Ok tt (f s).

Declare Scope py_scope.
Delimit Scope py_scope with py.
Notation "x <- m ;; k" := (bind m (fun x => k))
  (at level 100, m at next level, right associativity) : py_scope.
Notation "m ;; k" := (bind m (fun _ => k))
  (at level 100, right associativity) : py_scope.
Open Scope py_scope.

Definition when (b : bool) (m : M unit) : M unit :=
  if b then m else ret tt.

(** The [except] clauses of a [try] statement, in source order: the first
    clause whose class the exception is an instance of handles it. *)
Fixpoint find_handler {A} (e : PyExc) (hs : list (PyClass * (PyExc -> M A)))
  : option (PyExc -> M A) :=
  match hs with
  | [] => None
  | (c, h) :: hs' => if isinstance e c then Some h else find_handler e hs'
  end.

(** [try: body except ...]: an exception the chosen clause raises leaves
    the statement; the other clauses do not see it. *)
Definition try_except {A} (body : M A) (hs : list (PyClass * (PyExc -> M A)))
  : M A :=
  fun s =>
    match body s with
    | Exc e s' =>
        match find_handler e hs with
        | Some h => h e s'
        | None => Exc e s'
        end
    | r => r
    end.

(** [try: body finally: fin]: [fin] runs however [body] ends; what [body]
    returned or raised stands unless [fin] itself raises. *)
Definition try_finally {A} (body : M A) (fin : M unit) : M A :=
  fun s =>
    match body s with
    | Ok a s' =>
        match fin s' with
        | Ok _ s'' => Ok a s''
        | Exc e s'' => Exc e s''
        | Diverge => Diverge
        end
    | Exc e s' =>
        match fin s' with
        | Ok _ s'' => Exc e s''
        | Exc e' s'' => Exc e' s''
        | Diverge => Diverge
        end
    | Diverge => Diverge
    end.

(** [with redirect_stdout(target): body] *)
Definition redirect_stdout {A} (target : Stream) (body : M A) : M A :=
  old <- get sys_stdout ;;
  modify (set_sys_stdout target) ;;
  try_finally body (modify (set_sys_stdout old)).

(** [with redirect_stderr(target): body] *)
Definition redirect_stderr {A} (target : Stream) (body : M A) : M A :=
  old <- get sys_stderr ;;
  modify (set_sys_stderr target) ;;
  try_finally body (modify (set_sys_stderr old)).

(** [stream.write(text)] *)
Definition stream_write (f : Stream) (text : string) : M unit :=
  fun s =>
    if stream_closed f s then Exc (closed_error f) s
    else Ok tt (append_to f text s).

(** [print(text)] *)
Definition print (text : string) : M unit :=
  fun s => stream_write (sys_stdout s) (text ++ nl) s.

(** [stdout_capture = StringIO()] *)
Definition new_stdout_capture : M unit :=
  modify (fun s =>
            set_stdout_planted None
              (set_stdout_closed false (set_stdout_capture EmptyString s))).

(** [stderr_capture = StringIO()] *)
Definition new_stderr_capture : M unit :=
  modify (fun s =>
            set_stderr_planted None
              (set_stderr_closed false (set_stderr_capture EmptyString s))).

(** [buffer.getvalue()]: the attribute set on the object is found first;
    without one the method of [StringIO] answers, with what the buffer
    holds, or with a [ValueError] once the buffer is closed. *)
Definition getvalue (text : string) (closed : bool) (planted : option Reply)
  : Reply :=
  match planted with
  | Some r => r
  | None => if closed then Throws closed_buffer_error else Gives (VStr text)
  end.

Definition stdout_reply (s : State) : Reply :=
  getvalue (stdout_capture s) (stdout_closed s) (stdout_planted s).

Definition stderr_reply (s : State) : Reply :=
  getvalue (stderr_capture s) (stderr_closed s) (stderr_planted s).

Definition call (r : Reply) : M PyVal :=
  match r with
  | Gives v => ret v
  | Throws e => raise e
  end.

(** [stdout_capture.getvalue()] *)
Definition stdout_getvalue : M PyVal :=
  fun s => call (stdout_reply s) s.

(** [stderr_capture.getvalue()] *)
Definition stderr_getvalue : M PyVal :=
  fun s => call (stderr_reply s) s.

(** [str(e)] *)
Definition py_str (e : PyExc) : M string :=
  match exc_str e with
  | Str m => ret m
  | StrRaises e' => raise e'
  end.

(** [signal.signal(signal.SIGALRM, handler)] *)
Definition signal_signal (h : Handler) : M unit :=
  modify (set_sigalrm_handler (Some h)).

(** [signal.alarm(seconds)]: zero cancels the pending alarm. *)
Definition signal_alarm (seconds : N) : M unit :=
  modify (set_alarm (if N.eqb seconds 0 then None else Some seconds)).

(** [result[k] = v] *)
Definition result_set (k : string) (v : PyVal) : M unit :=
  modify (fun s => set_result (dict_set (result s) k v) s).

(** [obj.get(key, default)]: only a [dict] has the method. *)
Definition py_get (obj : PyVal) (key : string) (default : PyVal) : M PyVal :=
  match obj with
  | VDict d =>
      ret (match dict_get d key with Some v => v | None => default end)
  | _ =>
      raise (new_exc AttributeError
               ("'" ++ type_name obj ++ "' object has no attribute 'get'"))
  end.

(** [sys.stdin.read()] *)
Definition sys_stdin_read : M string :=
  fun s =>
    match stdin s with
    | Some text => Ok text (set_stdin (Some EmptyString) s)
    | None =>
        Exc (new_exc AttributeError
               "'NoneType' object has no attribute 'read'") s
    end.

(** ** [json.dumps], with its default arguments

    [ensure_ascii] is on: everything outside the printable ASCII range is
    escaped; items are separated by [", "] and keys by [": "]. *)

Definition hex_digit (n : nat) : ascii :=
  nth n (list_ascii_of_string "0123456789abcdef") "0"%char.

Definition escape_char (c : ascii) : string :=
  let n := nat_of_ascii c in
  if Nat.eqb n 34 then bs ++ dq
  else if Nat.eqb n 92 then bs ++ bs
  else if Nat.eqb n 10 then bs ++ "n"
  else if Nat.eqb n 13 then bs ++ "r"
  else if Nat.eqb n 9 then bs ++ "t"
  else if Nat.eqb n 8 then bs ++ "b"
  else if Nat.eqb n 12 then bs ++ "f"
  else if (Nat.leb 32 n && Nat.leb n 126)%bool then String c EmptyString
  else bs ++ "u00"
       ++ String (hex_digit (n / 16)) (String (hex_digit (n mod 16)) EmptyString).

Fixpoint escape_string (s : string) : string :=
  match s with
  | EmptyString => EmptyString
  | String c s' => escape_char c ++ escape_string s'
  end.

Definition json_string (s : string) : string := dq ++ escape_string s ++ dq.

Definition string_of_Z (z : Z) : string :=
  NilZero.string_of_int (Z.to_int z).

Fixpoint json_dumps (v : PyVal) : string :=
  match v with
  | VNone => "null"
  | VBool true => "true"
  | VBool false => "false"
  | VInt z => string_of_Z z
  | VFloat lit => lit
  | VStr s => json_string s
  | VList l =>
      "[" ++ (fix items (l : list PyVal) : string :=
                match l with
                | [] => EmptyString
                | [x] => json_dumps x
                | x :: l' => json_dumps x ++ ", " ++ items l'
                end) l ++ "]"
  | VDict d =>
      "{" ++ (fix items (d : list (string * PyVal)) : string :=
                match d with
                | [] => EmptyString
                | [(k, x)] => json_string k ++ ": " ++ json_dumps x
                | (k, x) :: d' =>
                    json_string k ++ ": " ++ json_dumps x ++ ", " ++ items d'
                end) d ++ "}"
  end.

(** ** The executor *)

Definition TIMEOUT_SECONDS : N := 30.

(** [def timeout_handler(signum, frame): raise TimeoutError(...)] *)
Definition timeout_handler (signum : nat) (frame : unit) : Signal :=
  HRaises (new_exc TimeoutError "Execution timed out").

(** The [TypeError] of [exec] on a source that is not a string. *)
Definition exec_type_error : PyExc :=
  new_exc TypeError "exec() arg 1 must be a string, bytes or code object".

Section Executor.

Context (rt : Runtime).

(** [hasattr(signal, 'SIGALRM')] *)
Definition has_SIGALRM : bool :=
  match SIGALRM rt with Some _ => true | None => false end.

(** The built-in [exec(source, namespace)]: compile, then run.  The
    namespace is updated in place; the updated one is returned here.  The
    run changes the process as it likes, except for the local [result]
    of the caller. *)
Definition builtin_exec (source : PyVal) (ns : Namespace rt)
  : M (Namespace rt) :=
  fun s =>
    match source with
    | VStr text =>
        match py_compile rt text with
        | inr e => Exc e s
        | inl c =>
            match py_run rt c ns s with
            | NoReturn => Diverge
            | Finished ns' s' Returned => Ok ns' (set_result (result s) s')
            | Finished ns' s' (Raised e) => Exc e (set_result (result s) s')
            end
        end
    | _ => Exc exec_type_error s
    end.

(** Lines 21-27. *)
Definition fresh_result : Dict :=
  [ ("passed", VBool false);
    ("error", VNone);
    ("error_type", VNone);
    ("output", VStr EmptyString);
    ("test_output", VStr EmptyString) ].

(** Lines 35-37. *)
Definition arm_timeout : M unit :=
  when has_SIGALRM
    (signal_signal timeout_handler ;; signal_alarm TIMEOUT_SECONDS).

(** Lines 43-47: the two [exec] calls inside the [with] block. *)
Definition evaluate (code test_code : PyVal) : M unit :=
  let namespace := builtins_namespace rt in
  redirect_stdout StdoutCapture
    (redirect_stderr StderrCapture
       (ns <- builtin_exec code namespace ;;
        _ <- builtin_exec test_code ns ;;
        ret tt)).

(** Lines 34-50: the body of the [try] statement. *)
Definition try_body (code test_code : PyVal) : M unit :=
  arm_timeout ;;
  evaluate code test_code ;;
  result_set "passed" (VBool true) ;;
  out <- stdout_getvalue ;;
  result_set "output" out.

(** Lines 52-63: the [except] clauses, in source order. *)
Definition handlers : list (PyClass * (PyExc -> M unit)) :=
  [ (SyntaxError, fun e =>
       m <- py_str e ;;
       result_set "error" (VStr m) ;;
       result_set "error_type" (VStr "syntax"));
    (TimeoutError, fun e =>
       m <- py_str e ;;
       result_set "error" (VStr m) ;;
       result_set "error_type" (VStr "timeout"));
    (AssertionError, fun e =>
       m <- py_str e ;;
       result_set "error" (VStr (str_or m "Assertion failed")) ;;
       result_set "error_type" (VStr "assertion"));
    (Exception, fun e =>
       result_set "error" (VStr (format_exc rt e)) ;;
       result_set "error_type" (VStr "runtime")) ].

(** Lines 64-67: the [finally] clause. *)
Definition cleanup : M unit :=
  when has_SIGALRM (signal_alarm 0) ;;
  err <- stderr_getvalue ;;
  result_set "test_output" err.

(** Lines 21-67: everything before [return result]. *)
Definition execute_code_frame (code test_code : PyVal) : M unit :=
  modify (set_result fresh_result) ;;
  new_stdout_capture ;;
  new_stderr_capture ;;
  try_finally (try_except (try_body code test_code) handlers) cleanup.

Definition execute_code (code test_code : PyVal) : M Dict :=
  execute_code_frame code test_code ;;
  get result.

(** ** The driver *)

Definition json_loads_ (text : string) : M PyVal :=
  match json_loads rt text with
  | inl v => ret v
  | inr e => raise e
  end.

(** Lines 74-79. *)
Definition main_body : M unit :=
  text <- sys_stdin_read ;;
  input_data <- json_loads_ text ;;
  code <- py_get input_data "code" (VStr EmptyString) ;;
  test_code <- py_get input_data "test" (VStr EmptyString) ;;
  r <- execute_code code test_code ;;
  print (json_dumps (VDict r)).

Definition input_failure (detail : string) : Dict :=
  [ ("passed", VBool false);
    ("error", VStr ("Invalid JSON input: " ++ detail));
    ("error_type", VStr "input") ].

Definition executor_failure (message : string) : Dict :=
  [ ("passed", VBool false);
    ("error", VStr message);
    ("error_type", VStr "executor") ].

(** Lines 81-92: the [except] clauses of [main], in source order. *)
Definition main_handlers : list (PyClass * (PyExc -> M unit)) :=
  [ (JSONDecodeError, fun e =>
       m <- py_str e ;;
       print (json_dumps (VDict (input_failure m))));
    (Exception, fun e =>
       m <- py_str e ;;
       print (json_dumps (VDict (executor_failure m)))) ].

Definition main : M unit := try_except main_body main_handlers.

(** One invocation of the script on a standard input. *)
Definition run_script (input : option string) : Res unit :=
  main (initial_state input).

End Executor.

(** What the process wrote to its standard output, if it ended. *)
Definition printed {A} (r : Res A) : option string :=
  match r with
  | Ok _ s => Some (console_out s)
  | Exc _ s => Some (console_out s)
  | Diverge => None
  end.

(** * MiniPy: a runtime for a fragment of Python

    The fragment, one statement per line:
    - [pass], [import sys], [while True: pass];
    - [x = EXPR], [EXPR], [print(EXPR)], [print(EXPR, file=sys.stderr)];
    - [sys.stdout.close()], [sys.stderr.close()],
      [sys.__stdout__.write('text')],
      [sys.stdout.getvalue = lambda: 'text'];
    - [assert EXPR], [assert EXPR, EXPR];
    - [raise Class], [raise Class(ATOM)] for the built-in exception classes;
    - [try:] / [except Class:] around blocks of the statements above,
      indented by four spaces.
    An EXPR is an ATOM or [ATOM == ATOM]; an ATOM is a decimal literal, a
    single-quoted string without escapes, [True], [False], [None], or a
    variable, whose name is one lower-case letter.  On this fragment
    MiniPy follows CPython 3.11; any other text is rejected by its
    compiler. *)

Module MiniPy.

(** ** Text utilities *)

Fixpoint strip_prefix (p s : string) : option string :=
  match p, s with
  | EmptyString, _ => Some s
  | String a p', String b s' =>
      if Ascii.eqb a b then strip_prefix p' s' else None
  | String _ _, EmptyString => None
  end.

Definition string_rev (s : string) : string :=
  string_of_list_ascii (rev (list_ascii_of_string s)).

Definition strip_suffix (p s : string) : option string :=
  option_map string_rev (strip_prefix (string_rev p) (string_rev s)).

(** Every way to write [s] as [before ++ sep ++ after], leftmost first. *)
Fixpoint splits (sep s : string) : list (string * string) :=
  let here :=
    match strip_prefix sep s with
    | Some r => [(EmptyString, r)]
    | None => []
    end in
  match s with
  | EmptyString => here
  | String c s' =>
      here ++ map (fun ab => (String c (fst ab), snd ab)) (splits sep s')
  end.

Fixpoint split_lines (s : string) : list string :=
  match s with
  | EmptyString => [EmptyString]
  | String c s' =>
      if Ascii.eqb c "010"%char then EmptyString :: split_lines s'
      else match split_lines s' with
           | l :: ls => String c l :: ls
           | [] => [String c EmptyString]
           end
  end.

Fixpoint first_some {A B} (f : A -> option B) (l : list A) : option B :=
  match l with
  | [] => None
  | a :: l' => match f a with Some b => Some b | None => first_some f l' end
  end.

Definition is_digit (c : ascii) : bool :=
  let n := nat_of_ascii c in (Nat.leb 48 n && Nat.leb n 57)%bool.

Definition is_lower (c : ascii) : bool :=
  let n := nat_of_ascii c in (Nat.leb 97 n && Nat.leb n 122)%bool.

Fixpoint digits_value (acc : Z) (s : string) : option Z :=
  match s with
  | EmptyString => Some acc
  | String c s' =>
      if is_digit c
      then digits_value (10 * acc + Z.of_nat (nat_of_ascii c - 48)) s'
      else None
  end.

(** ** Syntax *)

Inductive Atom : Type :=
| AConst (v : PyVal)
| AName (x : string).

Inductive Expr : Type :=
| EAtom (a : Atom)
| EEq (a b : Atom).

Inductive Simple : Type :=
| SPass
| SImportSys
| SSpin
| SAssign (x : string) (e : Expr)
| SExpr (e : Expr)
| SPrint (e : Expr)
| SPrintErr (e : Expr)
| SCloseOut
| SCloseErr
| SDirect (text : string)
| SPlant (text : string)
| SAssert (e : Expr) (msg : option Expr)
| SRaise (c : PyClass) (arg : option Atom).

Inductive Stmt : Type :=
| Line (s : Simple)
| Try (body : list Simple) (c : PyClass) (handler : list Simple).

(** ** The compiler *)

Definition parse_int (s : string) : option Z :=
  match s with
  | EmptyString => None
  | String c EmptyString => digits_value 0 s
  | String c _ => if Ascii.eqb c "0"%char then None else digits_value 0 s
  end.

Definition plain_char (c : ascii) : bool :=
  let n := nat_of_ascii c in
  (Nat.leb 32 n && Nat.leb n 126 && negb (Nat.eqb n 39)
   && negb (Nat.eqb n 92))%bool.

Fixpoint all_plain (s : string) : bool :=
  match s with
  | EmptyString => true
  | String c s' => (plain_char c && all_plain s')%bool
  end.

Definition parse_str (s : string) : option string :=
  match strip_prefix "'" s with
  | Some r =>
      match strip_suffix "'" r with
      | Some body => if all_plain body then Some body else None
      | None => None
      end
  | None => None
  end.

Definition parse_atom (s : string) : option Atom :=
  if String.eqb s "True" then Some (AConst (VBool true))
  else if String.eqb s "False" then Some (AConst (VBool false))
  else if String.eqb s "None" then Some (AConst VNone)
  else match parse_int s with
       | Some z => Some (AConst (VInt z))
       | None =>
           match parse_str s with
           | Some b => Some (AConst (VStr b))
           | None =>
               match s with
               | String c EmptyString =>
                   if is_lower c then Some (AName s) else None
               | _ => None
               end
           end
       end.

Definition parse_pair {A B C} (f : string -> option A) (g : string -> option B)
    (k : A -> B -> C) (ab : string * string) : option C :=
  match f (fst ab), g (snd ab) with
  | Some a, Some b => Some (k a b)
  | _, _ => None
  end.

Definition parse_expr (s : string) : option Expr :=
  match parse_atom s with
  | Some a => Some (EAtom a)
  | None => first_some (parse_pair parse_atom parse_atom EEq) (splits " == " s)
  end.

Definition class_table : list (string * PyClass) :=
  [ ("BaseException", BaseException); ("Exception", Exception);
    ("SyntaxError", SyntaxError); ("IndentationError", IndentationError);
    ("OSError", OSError); ("TimeoutError", TimeoutError);
    ("AssertionError", AssertionError); ("ValueError", ValueError);
    ("TypeError", TypeError); ("AttributeError", AttributeError);
    ("NameError", NameError); ("RuntimeError", RuntimeError);
    ("SystemExit", SystemExit); ("KeyboardInterrupt", KeyboardInterrupt);
    ("GeneratorExit", GeneratorExit) ].

Definition parse_class (s : string) : option PyClass :=
  first_some (fun kc => if String.eqb (fst kc) s then Some (snd kc) else None)
    class_table.

Definition class_name (c : PyClass) : string :=
  match first_some (fun kc => if class_eqb (snd kc) c then Some (fst kc)
                              else None) class_table with
  | Some n => n
  | None =>
      match c with
      | JSONDecodeError => "json.decoder.JSONDecodeError"
      | UserClass n => n
      | _ => EmptyString
      end
  end.

Definition parse_print (inner : string) : option Simple :=
  match parse_expr inner with
  | Some e => Some (SPrint e)
  | None =>
      match strip_suffix ", file=sys.stderr" inner with
      | Some e => option_map SPrintErr (parse_expr e)
      | None => None
      end
  end.

Definition parse_assert (rest : string) : option Simple :=
  match parse_expr rest with
  | Some e => Some (SAssert e None)
  | None =>
      first_some
        (parse_pair parse_expr parse_expr (fun e m => SAssert e (Some m)))
        (splits ", " rest)
  end.

Definition parse_raise (rest : string) : option Simple :=
  match parse_class rest with
  | Some c => Some (SRaise c None)
  | None =>
      match strip_suffix ")" rest with
      | Some call =>
          first_some
            (parse_pair parse_class parse_atom (fun c a => SRaise c (Some a)))
            (splits "(" call)
      | None => None
      end
  end.

Definition parse_assign (line : string) : option Simple :=
  match line with
  | String c rest =>
      if is_lower c then
        match strip_prefix " = " rest with
        | Some rhs =>
            option_map (SAssign (String c EmptyString)) (parse_expr rhs)
        | None => None
        end
      else None
  | EmptyString => None
  end.

Definition parse_simple (line : string) : option Simple :=
  if String.eqb line "pass" then Some SPass
  else if String.eqb line "import sys" then Some SImportSys
  else if String.eqb line "while True: pass" then Some SSpin
  else if String.eqb line "sys.stdout.close()" then Some SCloseOut
  else if String.eqb line "sys.stderr.close()" then Some SCloseErr
  else
    match strip_prefix "sys.__stdout__.write(" line with
    | Some rest =>
        match strip_suffix ")" rest with
        | Some inner => option_map SDirect (parse_str inner)
        | None => None
        end
    | None =>
    match strip_prefix "sys.stdout.getvalue = lambda: " line with
    | Some rest => option_map SPlant (parse_str rest)
    | None =>
    match strip_prefix "print(" line with
    | Some rest =>
        match strip_suffix ")" rest with
        | Some inner => parse_print inner
        | None => None
        end
    | None =>
        match strip_prefix "assert " line with
        | Some rest => parse_assert rest
        | None =>
            match strip_prefix "raise " line with
            | Some rest => parse_raise rest
            | None =>
                match parse_expr line with
                | Some e => Some (SExpr e)
                | None => parse_assign line
                end
            end
        end
    end
    end
    end.

(** The lines of an indented block, parsed, the lines after it and the
    number of the first of them; otherwise the number of the first line
    that does not parse.  Empty lines are skipped. *)
Fixpoint parse_block (lineno : nat) (ls : list string)
  : (list Simple * list string * nat) + nat :=
  match ls with
  | [] => inl ([], [], lineno)
  | l :: ls' =>
      if String.eqb l EmptyString then parse_block (S lineno) ls' else
      match strip_prefix "    " l with
      | Some body =>
          match parse_simple body with
          | Some s =>
              match parse_block (S lineno) ls' with
              | inl (ss, rest, n) => inl (s :: ss, rest, n)
              | inr bad => inr bad
              end
          | None => inr lineno
          end
      | None => inl ([], ls, lineno)
      end
  end.

Definition parse_except (l : string) : option PyClass :=
  match strip_prefix "except " l with
  | Some r =>
      match strip_suffix ":" r with
      | Some name => parse_class name
      | None => None
      end
  | None => None
  end.

Fixpoint parse_lines (fuel : nat) (lineno : nat) (ls : list string)
  : list Stmt + nat :=
  match fuel, ls with
  | _, [] => inl []
  | O, _ :: _ => inr lineno
  | S fuel', l :: ls' =>
      if String.eqb l EmptyString then parse_lines fuel' (S lineno) ls'
      else if String.eqb l "try:" then
        match parse_block (S lineno) ls' with
        | inl ([], _, n) => inr n
        | inl (_, [], n) => inr n
        | inl (body, e :: ls2, n) =>
            match parse_except e with
            | None => inr n
            | Some c =>
                match parse_block (S n) ls2 with
                | inl ([], _, n') => inr n'
                | inl (handler, ls3, n') =>
                    match parse_lines fuel' n' ls3 with
                    | inl ss => inl (Try body c handler :: ss)
                    | inr bad => inr bad
                    end
                | inr bad => inr bad
                end
            end
        | inr bad => inr bad
        end
      else
        match parse_simple l with
        | Some s =>
            match parse_lines fuel' (S lineno) ls' with
            | inl ss => inl (Line s :: ss)
            | inr bad => inr bad
            end
        | None => inr lineno
        end
  end.

Definition string_of_nat (n : nat) : string :=
  NilZero.string_of_uint (Nat.to_uint n).

Definition syntax_error (lineno : nat) : PyExc :=
  new_exc SyntaxError
    ("invalid syntax (<string>, line " ++ string_of_nat lineno ++ ")").

Fixpoint has_null (s : string) : bool :=
  match s with
  | EmptyString => false
  | String c s' => (Nat.eqb (nat_of_ascii c) 0 || has_null s')%bool
  end.

(** A source with a null character is refused with a [ValueError], before
    it is parsed; a source that does not parse, with a [SyntaxError]. *)
Definition compile (source : string) : list Stmt + PyExc :=
  if has_null source
  then inr (new_exc ValueError "source code string cannot contain null bytes")
  else
    let ls := split_lines source in
    match parse_lines (length ls) 1 ls with
    | inl prog => inl prog
    | inr lineno => inr (syntax_error lineno)
    end.

(** ** The interpreter *)

Record NS : Type := mkNS {
  vars : list (string * PyVal);
  sys_imported : bool
}.

Definition builtins : NS := {| vars := []; sys_imported := false |}.

(** How a statement ends: in a namespace and a process state. *)
Inductive Outcome : Type :=
| Next (ns : NS) (s : State)
| Throw (e : PyExc) (ns : NS) (s : State)
| Hang.

Definition name_error (x : string) : PyExc :=
  new_exc NameError ("name '" ++ x ++ "' is not defined").

Definition eval_atom (ns : NS) (a : Atom) : PyVal + PyExc :=
  match a with
  | AConst v => inl v
  | AName x =>
      match dict_get (vars ns) x with
      | Some v => inl v
      | None => inr (name_error x)
      end
  end.

Definition as_number (v : PyVal) : option Z :=
  match v with
  | VBool b => Some (if b then 1 else 0)%Z
  | VInt z => Some z
  | _ => None
  end.

Definition py_eq (a b : PyVal) : bool :=
  match as_number a, as_number b with
  | Some x, Some y => Z.eqb x y
  | _, _ =>
      match a, b with
      | VStr x, VStr y => String.eqb x y
      | VNone, VNone => true
      | _, _ => false
      end
  end.

Definition eval_expr (ns : NS) (e : Expr) : PyVal + PyExc :=
  match e with
  | EAtom a => eval_atom ns a
  | EEq a b =>
      match eval_atom ns a with
      | inl x =>
          match eval_atom ns b with
          | inl y => inl (VBool (py_eq x y))
          | inr err => inr err
          end
      | inr err => inr err
      end
  end.

(** [str(v)] for the values of the fragment. *)
Definition str_of (v : PyVal) : string :=
  match v with
  | VNone => "None"
  | VBool true => "True"
  | VBool false => "False"
  | VInt z => string_of_Z z
  | VStr s => s
  | _ => EmptyString
  end.

Definition truthy (v : PyVal) : bool :=
  match v with
  | VNone => false
  | VBool b => b
  | VInt z => negb (Z.eqb z 0)
  | VStr EmptyString => false
  | _ => true
  end.

(** SIGALRM has been delivered: the alarm is one-shot. *)
Definition delivered (s : State) : State :=
  set_alarm_fired true (set_alarm None s).

Definition sigalrm : nat := 14.

(** [while True: pass] runs until a pending alarm is delivered and its
    handler raises; it goes on when the handler returns, and the process
    does not survive an alarm that has no handler. *)
Definition spin (ns : NS) (s : State) : Outcome :=
  match alarm s, sigalrm_handler s with
  | Some _, Some handler =>
      match handler sigalrm tt with
      | HRaises e => Throw e ns (delivered s)
      | HReturns => Hang
      end
  | _, _ => Hang
  end.

(** A write, as a statement. *)
Definition write_to (f : Stream) (text : string) (ns : NS) (s : State)
  : Outcome :=
  match stream_write f text s with
  | Ok _ s' => Next ns s'
  | Exc e s' => Throw e ns s'
  | Diverge => Hang
  end.

(** A statement that goes through the name [sys]. *)
Definition with_sys (ns : NS) (s : State) (o : Outcome) : Outcome :=
  if sys_imported ns then o else Throw (name_error "sys") ns s.

Definition exec_simple (st : Simple) (ns : NS) (s : State) : Outcome :=
  match st with
  | SPass => Next ns s
  | SImportSys => Next (mkNS (vars ns) true) s
  | SSpin => spin ns s
  | SAssign x e =>
      match eval_expr ns e with
      | inl v => Next (mkNS (dict_set (vars ns) x v) (sys_imported ns)) s
      | inr err => Throw err ns s
      end
  | SExpr e =>
      match eval_expr ns e with
      | inl _ => Next ns s
      | inr err => Throw err ns s
      end
  | SPrint e =>
      match eval_expr ns e with
      | inl v => write_to (sys_stdout s) (str_of v ++ nl) ns s
      | inr err => Throw err ns s
      end
  | SPrintErr e =>
      match eval_expr ns e with
      | inl v =>
          with_sys ns s (write_to (sys_stderr s) (str_of v ++ nl) ns s)
      | inr err => Throw err ns s
      end
  | SCloseOut => with_sys ns s (Next ns (close_stream (sys_stdout s) s))
  | SCloseErr => with_sys ns s (Next ns (close_stream (sys_stderr s) s))
  | SDirect text => with_sys ns s (write_to Fd1 text ns s)
  | SPlant text =>
      with_sys ns s (Next ns (plant (sys_stdout s) (Gives (VStr text)) s))
  | SAssert e msg =>
      match eval_expr ns e with
      | inl v =>
          if truthy v then Next ns s
          else
            match msg with
            | None => Throw (assert_exc None) ns s
            | Some me =>
                match eval_expr ns me with
                | inl mv => Throw (assert_exc (Some (str_of mv))) ns s
                | inr err => Throw err ns s
                end
            end
      | inr err => Throw err ns s
      end
  | SRaise c None => Throw (new_exc c EmptyString) ns s
  | SRaise c (Some a) =>
      match eval_atom ns a with
      | inl v => Throw (new_exc c (str_of v)) ns s
      | inr err => Throw err ns s
      end
  end.

Fixpoint exec_block (ss : list Simple) (ns : NS) (s : State) : Outcome :=
  match ss with
  | [] => Next ns s
  | st :: ss' =>
      match exec_simple st ns s with
      | Next ns' s' => exec_block ss' ns' s'
      | o => o
      end
  end.

(** CPython 3.11 raises what a signal handler raises at the instruction
    before the one it resumes at.  For a busy loop that is the instruction
    before the loop: when the loop opens the body of a [try] statement,
    that instruction is the [try] line, which no [except] clause covers,
    and the exception leaves the statement; after any other statement of
    the body it is caught like every other exception. *)
Definition exec_stmt (st : Stmt) (ns : NS) (s : State) : Outcome :=
  match st with
  | Line st => exec_simple st ns s
  | Try (SSpin :: _) _ _ => spin ns s
  | Try body c handler =>
      match exec_block body ns s with
      | Throw e ns' s' =>
          if isinstance e c then exec_block handler ns' s'
          else Throw e ns' s'
      | o => o
      end
  end.

Fixpoint exec_prog (p : list Stmt) (ns : NS) (s : State) : Outcome :=
  match p with
  | [] => Next ns s
  | st :: p' =>
      match exec_stmt st ns s with
      | Next ns' s' => exec_prog p' ns' s'
      | o => o
      end
  end.

Definition run (p : list Stmt) (ns : NS) (s : State) : Run NS :=
  match exec_prog p ns s with
  | Next ns' s' => Finished ns' s' Returned
  | Throw e ns' s' => Finished ns' s' (Raised e)
  | Hang => NoReturn
  end.

(** The last line of a traceback; the frame lines, which name files of
    the host, are left out. *)
Definition traceback (e : PyExc) : string :=
  "Traceback (most recent call last):" ++ nl
  ++ match exc_mro e with c :: _ => class_name c | [] => EmptyString end
  ++ match exc_str e with
     | Str EmptyString => EmptyString
     | Str m => ": " ++ m
     | StrRaises _ => ": <exception str() failed>"
     end
  ++ nl.

(** ** The JSON decoder

    [json.loads] on the texts whose strings use no [\u] escape: the
    grammar of [json.scanner] and the messages of [json.decoder]. *)

Inductive JRes (A : Type) : Type :=
| JOk (a : A) (rest : list ascii) (pos : nat)
| JErr (msg : string) (pos : nat).
Arguments JOk {A}.
Arguments JErr {A}.

Definition is_ws (c : ascii) : bool :=
  let n := nat_of_ascii c in
  (Nat.eqb n 32 || Nat.eqb n 9 || Nat.eqb n 10 || Nat.eqb n 13)%bool.

Fixpoint skip_ws (cs : list ascii) (pos : nat) : list ascii * nat :=
  match cs with
  | c :: cs' => if is_ws c then skip_ws cs' (S pos) else (cs, pos)
  | [] => (cs, pos)
  end.

Definition unescape (c : ascii) : option ascii :=
  let n := nat_of_ascii c in
  if Nat.eqb n 34 then Some c
  else if Nat.eqb n 92 then Some c
  else if Nat.eqb n 47 then Some c
  else if Ascii.eqb c "b" then Some "008"%char
  else if Ascii.eqb c "f" then Some "012"%char
  else if Ascii.eqb c "n" then Some "010"%char
  else if Ascii.eqb c "r" then Some "013"%char
  else if Ascii.eqb c "t" then Some "009"%char
  else None.

(** The characters after an opening quote, up to the closing one. *)
Fixpoint scanstring (cs : list ascii) (pos start : nat) (acc : string)
  : JRes string :=
  match cs with
  | [] => JErr "Unterminated string starting at" start
  | c :: cs' =>
      if Nat.eqb (nat_of_ascii c) 34 then JOk acc cs' (S pos)
      else if Nat.eqb (nat_of_ascii c) 92 then
        match cs' with
        | [] => JErr "Unterminated string starting at" start
        | e :: cs'' =>
            match unescape e with
            | Some ch =>
                scanstring cs'' (S (S pos)) start
                  (acc ++ String ch EmptyString)
            | None => JErr "Invalid \escape" pos
            end
        end
      else if Nat.ltb (nat_of_ascii c) 32
      then JErr "Invalid control character at" pos
      else scanstring cs' (S pos) start (acc ++ String c EmptyString)
  end.

Fixpoint take_digits (cs : list ascii) : list ascii * list ascii :=
  match cs with
  | c :: cs' =>
      if is_digit c
      then let (ds, rest) := take_digits cs' in (c :: ds, rest)
      else ([], cs)
  | [] => ([], [])
  end.

(** The integer part of a number: an optional minus sign, then a single
    zero or a digit string that does not start with zero. *)
Definition scan_int (cs : list ascii) : option (list ascii * list ascii) :=
  let (sign, body) :=
    match cs with
    | c :: cs' => if Ascii.eqb c "-" then ([c], cs') else ([], cs)
    | [] => ([], cs)
    end in
  match body with
  | c :: cs' =>
      if Ascii.eqb c "0" then Some ((sign ++ [c])%list, cs')
      else if is_digit c
      then let (ds, rest) := take_digits body in Some ((sign ++ ds)%list, rest)
      else None
  | [] => None
  end.

(** The optional fraction: a dot and at least one digit. *)
Definition scan_frac (cs : list ascii) : list ascii * list ascii :=
  match cs with
  | c :: cs' =>
      if Ascii.eqb c "." then
        match take_digits cs' with
        | ([], _) => ([], cs)
        | (ds, rest) => (c :: ds, rest)
        end
      else ([], cs)
  | [] => ([], cs)
  end.

(** The optional exponent: [e] or [E], an optional sign, at least one
    digit. *)
Definition scan_exp (cs : list ascii) : list ascii * list ascii :=
  match cs with
  | c :: cs' =>
      if (Ascii.eqb c "e" || Ascii.eqb c "E")%bool then
        let (sign, body) :=
          match cs' with
          | d :: cs'' =>
              if (Ascii.eqb d "-" || Ascii.eqb d "+")%bool
              then ([d], cs'') else ([], cs')
          | [] => ([], cs')
          end in
        match take_digits body with
        | ([], _) => ([], cs)
        | (ds, rest) => ((c :: sign ++ ds)%list, rest)
        end
      else ([], cs)
  | [] => ([], cs)
  end.

Definition int_value (ds : list ascii) : Z :=
  match ds with
  | c :: ds' =>
      if Ascii.eqb c "-"
      then match digits_value 0 (string_of_list_ascii ds') with
           | Some z => (- z)%Z
           | None => 0%Z
           end
      else match digits_value 0 (string_of_list_ascii ds) with
           | Some z => z
           | None => 0%Z
           end
  | [] => 0%Z
  end.

Definition scan_number (cs : list ascii) (pos : nat) : option (JRes PyVal) :=
  match scan_int cs with
  | None => None
  | Some (ip, r1) =>
      let (fp, r2) := scan_frac r1 in
      let (ep, r3) := scan_exp r2 in
      let pos' := pos + length ip + length fp + length ep in
      match fp, ep with
      | [], [] => Some (JOk (VInt (int_value ip)) r3 pos')
      | _, _ =>
          Some (JOk (VFloat (string_of_list_ascii (ip ++ fp ++ ep)%list)) r3 pos')
      end
  end.

Fixpoint strip_chars (p : string) (cs : list ascii) : option (list ascii) :=
  match p, cs with
  | EmptyString, _ => Some cs
  | String a p', b :: cs' => if Ascii.eqb a b then strip_chars p' cs' else None
  | String _ _, [] => None
  end.

Definition constants : list (string * PyVal) :=
  [ ("null", VNone); ("true", VBool true); ("false", VBool false);
    ("NaN", VFloat "NaN"); ("Infinity", VFloat "Infinity");
    ("-Infinity", VFloat "-Infinity") ].

Definition scan_constant (cs : list ascii) (pos : nat) : option (JRes PyVal) :=
  first_some
    (fun kv =>
       match strip_chars (fst kv) cs with
       | Some rest => Some (JOk (snd kv) rest (pos + String.length (fst kv)))
       | None => None
       end) constants.

Fixpoint scan_once (fuel : nat) (cs : list ascii) (pos : nat) {struct fuel}
  : JRes PyVal :=
  match fuel with
  | O => JErr "Expecting value" pos
  | S f =>
      match cs with
      | [] => JErr "Expecting value" pos
      | c :: cs' =>
          if Nat.eqb (nat_of_ascii c) 34 then
            match scanstring cs' (S pos) pos EmptyString with
            | JOk s rest p => JOk (VStr s) rest p
            | JErr msg p => JErr msg p
            end
          else if Ascii.eqb c "{" then
            let (cs1, p1) := skip_ws cs' (S pos) in
            match cs1 with
            | d :: r =>
                if Ascii.eqb d "}" then JOk (VDict []) r (S p1)
                else if Nat.eqb (nat_of_ascii d) 34
                then members f [] r (S p1) p1
                else JErr "Expecting property name enclosed in double quotes"
                       p1
            | [] =>
                JErr "Expecting property name enclosed in double quotes" p1
            end
          else if Ascii.eqb c "[" then
            let (cs1, p1) := skip_ws cs' (S pos) in
            match cs1 with
            | d :: r =>
                if Ascii.eqb d "]" then JOk (VList []) r (S p1)
                else elements f [] cs1 p1
            | [] => JErr "Expecting value" p1
            end
          else
            match scan_constant cs pos with
            | Some r => r
            | None =>
                match scan_number cs pos with
                | Some r => r
                | None => JErr "Expecting value" pos
                end
            end
      end
  end

(** After the opening quote of a key, at [pos]; the quote is at [qpos]. *)
with members (fuel : nat) (acc : Dict) (cs : list ascii) (pos qpos : nat)
    {struct fuel} : JRes PyVal :=
  match fuel with
  | O => JErr "Expecting value" pos
  | S f =>
      match scanstring cs pos qpos EmptyString with
      | JErr msg p => JErr msg p
      | JOk key cs1 p1 =>
          let (cs2, p2) := skip_ws cs1 p1 in
          match strip_chars ":" cs2 with
          | None => JErr "Expecting ':' delimiter" p2
          | Some r =>
              let (cs3, p3) := skip_ws r (S p2) in
              match scan_once f cs3 p3 with
              | JErr msg p => JErr msg p
              | JOk v cs4 p4 =>
                  let (cs5, p5) := skip_ws cs4 p4 in
                  match cs5 with
                  | d :: r5 =>
                      if Ascii.eqb d "}"
                      then JOk (VDict (dict_set acc key v)) r5 (S p5)
                      else if Ascii.eqb d "," then
                        let (cs6, p6) := skip_ws r5 (S p5) in
                        match cs6 with
                        | q :: r6 =>
                            if Nat.eqb (nat_of_ascii q) 34
                            then members f (dict_set acc key v) r6 (S p6) p6
                            else JErr
                              "Expecting property name enclosed in double quotes"
                              p6
                        | [] =>
                            JErr
                              "Expecting property name enclosed in double quotes"
                              p6
                        end
                      else JErr "Expecting ',' delimiter" p5
                  | [] => JErr "Expecting ',' delimiter" p5
                  end
              end
          end
      end
  end

(** At the start of an array item. *)
with elements (fuel : nat) (acc : list PyVal) (cs : list ascii) (pos : nat)
    {struct fuel} : JRes PyVal :=
  match fuel with
  | O => JErr "Expecting value" pos
  | S f =>
      match scan_once f cs pos with
      | JErr msg p => JErr msg p
      | JOk v cs1 p1 =>
          let (cs2, p2) := skip_ws cs1 p1 in
          match cs2 with
          | d :: r =>
              if Ascii.eqb d "]" then JOk (VList (acc ++ [v])%list) r (S p2)
              else if Ascii.eqb d "," then
                let (cs3, p3) := skip_ws r (S p2) in elements f (acc ++ [v])%list cs3 p3
              else JErr "Expecting ',' delimiter" p2
          | [] => JErr "Expecting ',' delimiter" p2
          end
      end
  end.

(** The line and the column of the character at [pos], both from one. *)
Fixpoint line_col (cs : list ascii) (pos line col : nat) : nat * nat :=
  match pos, cs with
  | S p, c :: cs' =>
      if Ascii.eqb c "010"%char then line_col cs' p (S line) 1
      else line_col cs' p line (S col)
  | _, _ => (line, col)
  end.

Definition decode_error (text msg : string) (pos : nat) : PyExc :=
  let (line, col) := line_col (list_ascii_of_string text) pos 1 1 in
  new_exc JSONDecodeError
    (msg ++ ": line " ++ string_of_nat line ++ " column " ++ string_of_nat col
     ++ " (char " ++ string_of_nat pos ++ ")").

Definition loads (text : string) : PyVal + PyExc :=
  let (cs, p) := skip_ws (list_ascii_of_string text) 0 in
  match scan_once (2 * String.length text + 2) cs p with
  | JErr msg pos => inr (decode_error text msg pos)
  | JOk v rest pos =>
      match skip_ws rest pos with
      | ([], _) => inl v
      | (_ :: _, pos') => inr (decode_error text "Extra data" pos')
      end
  end.

(** ** The runtime *)

(** MiniPy on a platform with SIGALRM. *)
Definition runtime : Runtime :=
  {| Namespace := NS;
     CodeObj := list Stmt;
     builtins_namespace := builtins;
     SIGALRM := Some sigalrm;
     py_compile := compile;
     py_run := run;
     format_exc := traceback;
     json_loads := loads |}.

(** MiniPy on a platform without it. *)
Definition runtime_without_alarm : Runtime :=
  {| Namespace := NS;
     CodeObj := list Stmt;
     builtins_namespace := builtins;
     SIGALRM := None;
     py_compile := compile;
     py_run := run;
     format_exc := traceback;
     json_loads := loads |}.

End MiniPy.

(** ** Sources used in the examples *)

Module Examples.

(** A busy loop that swallows the timeout. *)
Definition swallows_timeout : string :=
  "try:" ++ nl ++ "    x = 1" ++ nl ++ "    while True: pass" ++ nl
  ++ "except TimeoutError:" ++ nl ++ "    pass".

(** Writes to both streams. *)
Definition chatty : string :=
  "import sys" ++ nl ++ "print('out')" ++ nl
  ++ "print('warn', file=sys.stderr)".


(** Closes the buffer that stands in for the standard output. *)
Definition closes_stdout : string :=
  "import sys" ++ nl ++ "sys.stdout.close()".

(** Closes the buffer that stands in for the standard error. *)
Definition closes_stderr : string :=
  "import sys" ++ nl ++ "sys.stderr.close()".


(** A test that catches its own failed assertion. *)
Definition forgiving_test : string :=
  "try:" ++ nl ++ "    assert x == 2" ++ nl
  ++ "except AssertionError:" ++ nl ++ "    pass".

(** Prints, and then sets a [getvalue] of its own on the buffer that
    stands in for the standard output. *)
Definition plants_getvalue : string :=
  "import sys" ++ nl ++ "print('a')" ++ nl
  ++ "sys.stdout.getvalue = lambda: 'fake'".

(** The request [{"code": "x = 1", "test": "assert x == 1"}]. *)
Definition request : string :=
  "{" ++ dq ++ "code" ++ dq ++ ": " ++ dq ++ "x = 1" ++ dq ++ ", "
  ++ dq ++ "test" ++ dq ++ ": " ++ dq ++ "assert x == 1" ++ dq ++ "}".

(** The request whose [code] is [closes_stderr]. *)
Definition closing_request : string :=
  "{" ++ dq ++ "code" ++ dq ++ ": " ++ dq ++ "import sys" ++ bs ++ "n"
  ++ "sys.stderr.close()" ++ dq ++ "}".

Definition start : State := initial_state None.

(** The runtime of the examples. *)
Definition py : Runtime := MiniPy.runtime.

End Examples.

(** Settles an equation between closed terms by running both sides. *)
Ltac run := vm_compute; reflexivity.

(** * Properties of the executor *)

Section ExecutorFacts.

Context (rt : Runtime).

(** ** The states [execute_code] goes through *)

(** After lines 21-31: [result] and the two buffers are fresh. *)
Definition entered (s : State) : State :=
  set_stderr_planted None
    (set_stderr_closed false
       (set_stderr_capture EmptyString
          (set_stdout_planted None
             (set_stdout_closed false
                (set_stdout_capture EmptyString
                   (set_result fresh_result s)))))).

(** After lines 35-37: the state in which the [with] block starts. *)
Definition armed (s : State) : State :=
  if has_SIGALRM rt
  then set_alarm (Some TIMEOUT_SECONDS)
         (set_sigalrm_handler (Some timeout_handler) (entered s))
  else entered s.

(** Inside the [with] block: the state in which [exec(code, ...)] starts. *)
Definition redirected (s : State) : State :=
  set_sys_stderr StderrCapture (set_sys_stdout StdoutCapture s).

(** Leaving the [with] block that was entered in state [s]. *)
Definition restored (s : State) (s' : State) : State :=
  set_sys_stdout (sys_stdout s) (set_sys_stderr (sys_stderr s) s').

Definition leave {A} (s : State) (r : Res A) : Res unit :=
  match r with
  | Ok _ s' => Ok tt (restored s s')
  | Exc e s' => Exc e (restored s s')
  | Diverge => Diverge
  end.

(** After line 49. *)
Definition marked_passed (s : State) : State :=
  set_result (dict_set (result s) "passed" (VBool true)) s.

(** After lines 49-50, when reading the stdout buffer gives [out]. *)
Definition passed_state (out : PyVal) (s : State) : State :=
  set_result
    (dict_set (dict_set (result s) "passed" (VBool true)) "output" out) s.

(** After an [except] clause that sets [error] and [error_type]. *)
Definition failed_state (tag msg : string) (s : State) : State :=
  set_result
    (dict_set (dict_set (result s) "error" (VStr msg)) "error_type"
       (VStr tag)) s.

(** After line 66. *)
Definition disarmed (s : State) : State :=
  if has_SIGALRM rt then set_alarm None s else s.

(** After the [finally] clause, when reading the stderr buffer gives
    [err]. *)
Definition cleaned (err : PyVal) (s : State) : State :=
  let s' := disarmed s in
  set_result (dict_set (result s') "test_output" err) s'.

(** The cleanup step has run: the alarm is off where the platform has
    one, and [test_output] holds what reading the stderr buffer gives. *)
Definition cleaned_up (s : State) : Prop :=
  (if has_SIGALRM rt then alarm s = None else True)
  /\ exists err,
       stderr_reply s = Gives err
       /\ dict_get (result s) "test_output" = Some err.

(** [str(e) or "Assertion failed"], when [str(e)] is [t]. *)
Definition text_or_fallback (t : StrRes) : StrRes :=
  match t with
  | Str m => Str (str_or m "Assertion failed")
  | StrRaises e => StrRaises e
  end.

(** The [finally] clause after the rest of the statement ended as [r]. *)
Definition finish {A} (r : Res A) : Res A :=
  match r with
  | Ok a s =>
      match stderr_reply s with
      | Gives err => Ok a (cleaned err s)
      | Throws e' => Exc e' (disarmed s)
      end
  | Exc e s =>
      match stderr_reply s with
      | Gives err => Exc e (cleaned err s)
      | Throws e' => Exc e' (disarmed s)
      end
  | Diverge => Diverge
  end.

(** ** Reading a result *)

Definition field (k : string) (d : Dict) : option PyVal := dict_get d k.


Definition passed_result (out err : PyVal) : Dict :=
  [ ("passed", VBool true);
    ("error", VNone);
    ("error_type", VNone);
    ("output", out);
    ("test_output", err) ].

Definition failed_result (tag msg : string) (err : PyVal) : Dict :=
  [ ("passed", VBool false);
    ("error", VStr msg);
    ("error_type", VStr tag);
    ("output", VStr EmptyString);
    ("test_output", err) ].

(** The result of a run that completed and whose stdout buffer could not
    be read at line 50: line 49 has run, and an [except] clause after
    it. *)
Definition unread_result (tag msg : string) (err : PyVal) : Dict :=
  [ ("passed", VBool true);
    ("error", VStr msg);
    ("error_type", VStr tag);
    ("output", VStr EmptyString);
    ("test_output", err) ].

(** [execute_code] returns a failure with this tag and this message. *)
Definition reports (code test_code : PyVal) (s : State) (tag msg : string)
  : Prop :=
  exists r s',
    execute_code rt code test_code s = Ok r s'
    /\ field "passed" r = Some (VBool false)
    /\ field "error_type" r = Some (VStr tag)
    /\ field "error" r = Some (VStr msg).

(** The classification table of the specification, its last row read as
    the [except Exception] clause: the tag of an error and what computing
    its message does, the first matching row winning; [None] where no
    row applies. *)
Definition classify (e : PyExc) : option (string * StrRes) :=
  if isinstance e SyntaxError then Some ("syntax", exc_str e)
  else if isinstance e TimeoutError then Some ("timeout", exc_str e)
  else if isinstance e AssertionError
  then Some ("assertion", text_or_fallback (exc_str e))
  else if isinstance e Exception then Some ("runtime", Str (format_exc rt e))
  else None.




(** The state of the script once the standard input has been read. *)
Definition consumed (input : string) : State :=
  set_stdin (Some EmptyString) (initial_state (Some input)).

(** [d.get(k, '')]: the field, or the empty string. *)
Definition get_or_empty (d : Dict) (k : string) : PyVal :=
  match dict_get d k with Some v => v | None => VStr EmptyString end.

(** Lines 78-79 under the [except] clauses of [main]. *)
Definition respond (code test_code : PyVal) : M unit :=
  try_except
    (r <- execute_code rt code test_code ;; print (json_dumps (VDict r)))
    main_handlers.


(** An [except] clause of lines 52-63 takes the error [e] in state [s]. *)
Definition handled (e : PyExc) (s : State) : Res unit :=
  match classify e with
  | Some (tag, Str msg) => Ok tt (failed_state tag msg s)
  | Some (_, StrRaises e') => Exc e' s
  | None => Exc e s
  end.

(** The [try] statement without its [finally] clause, in terms of how
    the evaluation ended. *)
Definition after_except (r : Res unit) : Res unit :=
  match r with
  | Ok _ s1 =>
      match stdout_reply s1 with
      | Gives out => Ok tt (passed_state out s1)
      | Throws e => handled e (marked_passed s1)
      end
  | Exc e s1 => handled e s1
  | Diverge => Diverge
  end.

(** What [execute_code] hands back when the [except] clauses have dealt
    with the error [e], [passed] is [p] and reading the stderr buffer
    gives [err]. *)
Definition settled (p : bool) (e : PyExc) (err : PyVal) (x : Res Dict)
  : Prop :=
  match classify e with
  | Some (tag, Str msg) =>
      exists s',
        x = Ok (if p then unread_result tag msg err
                else failed_result tag msg err) s'
        /\ cleaned_up s'
  | Some (_, StrRaises e') => exists s', x = Exc e' s' /\ cleaned_up s'
  | None => exists s', x = Exc e s' /\ cleaned_up s'
  end.

(** What [execute_code] hands back, given how the evaluation ended. *)
Definition verdict (r : Res unit) (x : Res Dict) : Prop :=
  match r with
  | Ok _ s1 =>
      match stderr_reply s1 with
      | Throws e' => exists s', x = Exc e' s'
      | Gives err =>
          match stdout_reply s1 with
          | Gives out =>
              exists s', x = Ok (passed_result out err) s' /\ cleaned_up s'
          | Throws e => settled true e err x
          end
      end
  | Exc e s1 =>
      match stderr_reply s1 with
      | Throws e' => exists s', x = Exc e' s'
      | Gives err => settled false e err x
      end
  | Diverge => x = Diverge
  end.

(** Reads the verdict [L] of a run whose evaluation ended as [H] says. *)
Ltac verdict_of L H :=
  let V := fresh "V" in
  pose proof L as V; rewrite H in V; cbn [verdict] in V.

(** ** How the pieces of [execute_code] compose *)

Lemma append_assoc (a b c : string) : (a ++ b) ++ c = a ++ (b ++ c).
Proof. induction a as [| x a IH]; cbn; [reflexivity | now rewrite IH]. Qed.

Lemma arm_timeout_run (s : State) :
  arm_timeout rt (entered s) = Ok tt (armed s).
Proof.
  unfold arm_timeout, armed, when.
  destruct (has_SIGALRM rt); reflexivity.
Qed.

Lemma evaluate_run (code test_code : PyVal) (s : State) :
  evaluate rt code test_code s =
  match builtin_exec rt code (builtins_namespace rt) (redirected s) with
  | Ok ns s1 => leave s (builtin_exec rt test_code ns s1)
  | Exc e s1 => Exc e (restored s s1)
  | Diverge => Diverge
  end.
Proof.
  unfold evaluate, redirect_stdout, redirect_stderr, try_finally, bind, get,
    modify, ret, redirected, restored, leave.
  cbn.
  destruct (builtin_exec rt code _ _) as [ns s1 | e s1 |]; cbn; try reflexivity.
  destruct (builtin_exec rt test_code ns s1) as [ns2 s2 | e s2 |]; reflexivity.
Qed.

(** Whatever the run does, [exec] leaves the [result] dictionary of its
    caller as it was. *)
Lemma builtin_exec_result (source : PyVal) (ns : Namespace rt) (s : State) :
  match builtin_exec rt source ns s with
  | Ok _ s' | Exc _ s' => result s' = result s
  | Diverge => True
  end.
Proof.
  unfold builtin_exec.
  destruct source as [| | | | text | |]; try reflexivity.
  destruct (py_compile rt text) as [c | e]; [| reflexivity].
  destruct (py_run rt c ns s) as [ns' s' [| e] |]; first [reflexivity | exact I].
Qed.

(** The evaluation leaves [result] as it was initialised. *)
Lemma evaluate_result (code test_code : PyVal) (s : State) :
  match evaluate rt code test_code (armed s) with
  | Ok _ s' | Exc _ s' => result s' = fresh_result
  | Diverge => True
  end.
Proof.
  rewrite evaluate_run.
  assert (H0 : result (redirected (armed s)) = fresh_result).
  { unfold redirected, armed. destruct (has_SIGALRM rt); reflexivity. }
  pose proof (builtin_exec_result code (builtins_namespace rt)
                (redirected (armed s))) as H1.
  destruct (builtin_exec rt code _ _) as [ns s1 | e s1 |]; [| | exact I].
  - pose proof (builtin_exec_result test_code ns s1) as H2.
    destruct (builtin_exec rt test_code ns s1) as [ns2 s2 | e s2 |];
      [| | exact I].
    all: cbn; congruence.
  - cbn. congruence.
Qed.

Lemma handlers_classify (e : PyExc) (s : State) :
  match find_handler e (handlers rt) with
  | Some h => h e s = handled e s
  | None => handled e s = Exc e s
  end.
Proof.
  unfold handled, classify; cbn [handlers find_handler].
  destruct (isinstance e SyntaxError).
  { unfold bind, py_str. destruct (exc_str e); reflexivity. }
  destruct (isinstance e TimeoutError).
  { unfold bind, py_str. destruct (exc_str e); reflexivity. }
  destruct (isinstance e AssertionError).
  { unfold bind, py_str. destruct (exc_str e); reflexivity. }
  destruct (isinstance e Exception); reflexivity.
Qed.

Lemma handled_run (e : PyExc) (s : State) :
  match find_handler e (handlers rt) with
  | Some h => h e s
  | None => Exc e s
  end = handled e s.
Proof.
  pose proof (handlers_classify e s) as H.
  destruct (find_handler e (handlers rt)); congruence.
Qed.

Lemma cleanup_run {A} (r : Res A) :
  match r with
  | Ok a s => try_finally (fun _ => r) (cleanup rt) s = finish r
  | Exc e s => try_finally (fun _ => r) (cleanup rt) s = finish r
  | Diverge => True
  end.
Proof.
  destruct r as [a s | e s |]; [| | exact I];
    unfold try_finally, cleanup, finish, disarmed, cleaned, disarmed, when,
      bind, stderr_getvalue, signal_alarm, modify, ret, result_set;
    destruct (has_SIGALRM rt); cbn;
    match goal with
    | |- context [call ?r] =>
        change r with (stderr_reply s); destruct (stderr_reply s)
    end; reflexivity.
Qed.

(** The [try] statement with its [except] clauses. *)
Lemma try_except_run (code test_code : PyVal) (s : State) :
  try_except (try_body rt code test_code) (handlers rt) (entered s)
  = after_except (evaluate rt code test_code (armed s)).
Proof.
  unfold try_except, try_body, bind at 1. rewrite arm_timeout_run.
  unfold bind at 1.
  destruct (evaluate rt code test_code (armed s)) as [[] s1 | e s1 |];
    [| | reflexivity].
  - unfold bind, result_set, modify, stdout_getvalue. cbn.
    change (stdout_reply (set_result _ s1)) with (stdout_reply s1).
    destruct (stdout_reply s1) as [out | e]; cbn; [reflexivity |].
    apply handled_run.
  - apply handled_run.
Qed.

(** [execute_code_frame] in terms of what the evaluation does. *)
Lemma execute_code_frame_run (code test_code : PyVal) (s : State) :
  execute_code_frame rt code test_code s
  = finish (after_except (evaluate rt code test_code (armed s))).
Proof.
  unfold execute_code_frame, new_stdout_capture, new_stderr_capture.
  unfold bind at 1 2 3. cbn [modify].
  change (set_stderr_planted None _) with (entered s).
  pose proof (try_except_run code test_code s) as H.
  unfold try_finally at 1. rewrite H.
  pose proof (@cleanup_run unit
                (after_except (evaluate rt code test_code (armed s)))) as C.
  destruct (after_except (evaluate rt code test_code (armed s)))
    as [[] s1 | e s1 |]; [| | reflexivity].
  - unfold try_finally in C. exact C.
  - unfold try_finally in C. exact C.
Qed.

Lemma execute_code_run (code test_code : PyVal) (s : State) :
  execute_code rt code test_code s
  = match finish (after_except (evaluate rt code test_code (armed s))) with
    | Ok _ s' => Ok (result s') s'
    | Exc e s' => Exc e s'
    | Diverge => Diverge
    end.
Proof.
  unfold execute_code, bind. rewrite execute_code_frame_run.
  destruct (finish _) as [[] s' | e s' |]; reflexivity.
Qed.

Lemma dict_get_set (d : Dict) (k : string) (v : PyVal) :
  (exists w, dict_get d k = Some w) -> dict_get (dict_set d k v) k = Some v.
Proof.
  induction d as [| [k' w'] d IH]; cbn.
  - intros [w H]. discriminate.
  - destruct (String.eqb k' k) eqn:E; cbn; rewrite E; [reflexivity | exact IH].
Qed.

Lemma cleaned_is_cleaned_up (err : PyVal) (s : State) :
  stderr_reply s = Gives err ->
  (exists w, dict_get (result s) "test_output" = Some w) ->
  cleaned_up (cleaned err s).
Proof.
  intros Hr Hk. unfold cleaned_up, cleaned, disarmed.
  destruct (has_SIGALRM rt); cbn; (split; [reflexivity |]);
    exists err; (split; [exact Hr | now apply dict_get_set]).
Qed.

Lemma cleaned_result (err : PyVal) (s : State) :
  result (cleaned err s) = dict_set (result s) "test_output" err.
Proof. unfold cleaned, disarmed. destruct (has_SIGALRM rt); reflexivity. Qed.

(** The verdict when an [except] clause has taken the error. *)
Lemma handled_settled (p : bool) (e : PyExc) (err : PyVal) (s1 : State) :
  stderr_reply s1 = Gives err ->
  result s1
  = (if p then dict_set fresh_result "passed" (VBool true)
     else fresh_result) ->
  settled p e err
    match finish (handled e s1) with
    | Ok _ s' => Ok (result s') s'
    | Exc e' s' => Exc e' s'
    | Diverge => Diverge
    end.
Proof.
  intros Hr HR. unfold settled, handled.
  destruct (classify e) as [[tag [msg | e']] |]; cbn [finish].
  - change (stderr_reply (failed_state tag msg s1)) with (stderr_reply s1).
    rewrite Hr. eexists. split.
    + rewrite cleaned_result. cbn. rewrite HR. destruct p; reflexivity.
    + apply cleaned_is_cleaned_up; [exact Hr |].
      cbn. rewrite HR. destruct p; eexists; reflexivity.
  - rewrite Hr. eexists. split; [reflexivity |].
    apply cleaned_is_cleaned_up; [exact Hr |].
    rewrite HR. destruct p; eexists; reflexivity.
  - rewrite Hr. eexists. split; [reflexivity |].
    apply cleaned_is_cleaned_up; [exact Hr |].
    rewrite HR. destruct p; eexists; reflexivity.
Qed.

(** When reading the stderr buffer fails, that failure is what leaves
    [execute_code]. *)
Lemma finish_throws {A} (r : Res A) (e' : PyExc) :
  match r with
  | Ok _ s | Exc _ s => stderr_reply s = Throws e'
  | Diverge => False
  end ->
  exists s', finish r = Exc e' s'.
Proof.
  destruct r as [a s | e s |]; cbn; [| | tauto]; intros ->; eexists;
    reflexivity.
Qed.

Lemma handled_reply (e : PyExc) (s : State) :
  match handled e s with
  | Ok _ s' | Exc _ s' => stderr_reply s' = stderr_reply s
  | Diverge => False
  end.
Proof.
  unfold handled. destruct (classify e) as [[tag [msg | e']] |]; reflexivity.
Qed.

(** [execute_code] in terms of what the evaluation does: the result it
    returns or the error it lets through, written out. *)
Lemma execute_code_verdict (code test_code : PyVal) (s : State) :
  verdict (evaluate rt code test_code (armed s))
    (execute_code rt code test_code s).
Proof.
  rewrite execute_code_run.
  pose proof (evaluate_result code test_code s) as HR.
  destruct (evaluate rt code test_code (armed s)) as [[] s1 | e s1 |];
    cbn [verdict after_except]; [| | reflexivity].
  - destruct (stderr_reply s1) as [err | e'] eqn:He.
    + destruct (stdout_reply s1) as [out | e] eqn:Ho.
      * cbn [finish].
        change (stderr_reply (passed_state out s1)) with (stderr_reply s1).
        rewrite He. eexists. split.
        -- rewrite cleaned_result. cbn. rewrite HR. reflexivity.
        -- apply cleaned_is_cleaned_up; [exact He |].
           cbn. rewrite HR. eexists; reflexivity.
      * apply handled_settled; [exact He |]. cbn. now rewrite HR.
    + assert (F : exists s',
                 finish
                   match stdout_reply s1 with
                   | Gives out => Ok tt (passed_state out s1)
                   | Throws e => handled e (marked_passed s1)
                   end = Exc e' s').
      { apply finish_throws.
        destruct (stdout_reply s1) as [out | e]; [exact He |].
        pose proof (handled_reply e (marked_passed s1)) as Hh.
        destruct (handled e (marked_passed s1)); [| | exact Hh];
          rewrite Hh; exact He. }
      destruct F as (s' & ->). now exists s'.
  - destruct (stderr_reply s1) as [err | e'] eqn:He.
    + apply handled_settled; [exact He | exact HR].
    + assert (F : exists s', finish (handled e s1) = Exc e' s').
      { apply finish_throws.
        pose proof (handled_reply e s1) as Hh.
        destruct (handled e s1); [| | exact Hh]; rewrite Hh; exact He. }
      destruct F as (s' & ->). now exists s'.
Qed.






(** Nothing has touched the buffers when [exec] refuses its source. *)
Lemma fresh_buffers (s : State) :
  stderr_reply (redirected (armed s)) = Gives (VStr EmptyString).
Proof. unfold redirected, armed. destruct (has_SIGALRM rt); reflexivity. Qed.


(** A classified error whose text can be computed is reported, when the
    stderr buffer answers. *)
Lemma classified_is_reported (code test_code : PyVal) (s s1 : State)
    (e : PyExc) (err : PyVal) (tag msg : string) :
  evaluate rt code test_code (armed s) = Exc e s1 ->
  stderr_reply s1 = Gives err ->
  classify e = Some (tag, Str msg) ->
  exists s',
    execute_code rt code test_code s = Ok (failed_result tag msg err) s'.
Proof.
  intros H Hr Hc. verdict_of (execute_code_verdict code test_code s) H.
  rewrite Hr in V. unfold settled in V. rewrite Hc in V.
  destruct V as (s' & V & _). now exists s'.
Qed.


(** ** The claims *)






(** C8. [code] is evaluated first, in the fresh namespace; [test] is
    evaluated next, in the namespace [code] leaves.  When [code] raises,
    [test] is not evaluated: nothing [execute_code] does depends on it. *)
Theorem code_then_test (code test_code : PyVal) (s : State) :
  match builtin_exec rt code (builtins_namespace rt) (redirected (armed s))
  with
  | Ok ns s1 =>
      evaluate rt code test_code (armed s)
      = leave (armed s) (builtin_exec rt test_code ns s1)
  | Exc e s1 =>
      forall other,
        evaluate rt code other (armed s) = Exc e (restored (armed s) s1)
        /\ execute_code rt code other s = execute_code rt code test_code s
  | Diverge =>
      forall other, execute_code rt code other s = Diverge
  end.
Proof.
  pose proof (evaluate_run code test_code (armed s)) as H.
  destruct (builtin_exec rt code _ _) as [ns s1 | e s1 |] eqn:E.
  - exact H.
  - intros other. pose proof (evaluate_run code other (armed s)) as H'.
    rewrite E in H'. split; [exact H' |].
    rewrite !execute_code_run, H, H'. reflexivity.
  - intros other. pose proof (evaluate_run code other (armed s)) as H'.
    rewrite E in H'. rewrite execute_code_run, H'. reflexivity.
Qed.

(** C9, amended. On a standard input that [json.loads] rejects with a
    [JSONDecodeError], the script prints one line, the JSON object with
    [passed] false, [error] "Invalid JSON input: " followed by the text of
    the decoder's error, and [error_type] "input", without [output] or
    [test_output], and it ends normally.  What [json.loads] accepts takes
    the other paths, also when it is not JSON. *)
Theorem malformed_input (payload : string) (e : PyExc) (detail : string) :
  json_loads rt payload = inr e ->
  isinstance e JSONDecodeError = true ->
  exc_str e = Str detail ->
  exists s' d,
    run_script rt (Some payload) = Ok tt s'
    /\ d = [ ("passed", VBool false);
             ("error", VStr ("Invalid JSON input: " ++ detail));
             ("error_type", VStr "input") ]
    /\ console_out s' = json_dumps (VDict d) ++ nl
    /\ field "output" d = None
    /\ field "test_output" d = None.
Proof.
  intros Hl Hi Hs.
  unfold run_script, main, try_except, main_body, bind, sys_stdin_read,
    json_loads_, raise.
  cbn. rewrite Hl. cbn. rewrite Hi. unfold py_str. rewrite Hs.
  eexists _, _. repeat split.
Qed.

(** C10. On a standard input that decodes to a value that is not an
    object, the lookup of the fields fails and the script prints one
    line, the JSON object with [passed] false and [error_type]
    "executor", and ends normally.  On an object, [code] and [test] are
    its fields of those names, each replaced by the empty string when
    missing. *)
Theorem non_object_input (payload : string) (v : PyVal) :
  json_loads rt payload = inl v ->
  match v with
  | VDict d =>
      run_script rt (Some payload)
      = respond (get_or_empty d "code") (get_or_empty d "test")
          (consumed payload)
  | _ =>
      exists s' d,
        run_script rt (Some payload) = Ok tt s'
        /\ d = [ ("passed", VBool false);
                 ("error",
                  VStr ("'" ++ type_name v
                        ++ "' object has no attribute 'get'"));
                 ("error_type", VStr "executor") ]
        /\ console_out s' = json_dumps (VDict d) ++ nl
  end.
Proof.
  intros Hl.
  unfold run_script, main, try_except, main_body, bind, sys_stdin_read,
    json_loads_, raise, ret.
  cbn. rewrite Hl.
  destruct v; cbn; try reflexivity; eexists _, _; repeat split.
Qed.

(** ** Further properties of [execute_code] *)






(** X6. A [code] that is not a string is not evaluated: [exec] rejects it
    with a [TypeError], which is reported as a "runtime" error. *)
Theorem non_string_code_is_runtime (code test_code : PyVal) (s : State) :
  (forall text, code <> VStr text) ->
  reports code test_code s "runtime" (format_exc rt exec_type_error).
Proof.
  intros Hn.
  assert (H : evaluate rt code test_code (armed s)
              = Exc exec_type_error
                  (restored (armed s) (redirected (armed s)))).
  { rewrite evaluate_run.
    destruct code as [| | | | text | |]; try reflexivity.
    now destruct (Hn text). }
  destruct (classified_is_reported code test_code s _ _
              (VStr EmptyString) "runtime" (format_exc rt exec_type_error)
              H (fresh_buffers s) eq_refl) as (s' & Hx).
  eexists _, _. split; [exact Hx | repeat split].
Qed.



(** X9. The alarm is armed once, before [code], and [test] runs in the
    state [code] leaves, with what is left of the alarm: when [code]
    completes and the run of [test] from that state never hands control
    back, [execute_code] does not return. *)
Theorem alarm_is_armed_once (code : PyVal) (test : string) (s s1 : State)
    (ns1 : Namespace rt) (c2 : CodeObj rt) :
  builtin_exec rt code (builtins_namespace rt) (redirected (armed s))
  = Ok ns1 s1 ->
  py_compile rt test = inl c2 ->
  py_run rt c2 ns1 s1 = NoReturn ->
  execute_code rt code (VStr test) s = Diverge.
Proof.
  intros H1 Hc Hr.
  rewrite execute_code_run, evaluate_run, H1. cbn [leave].
  unfold builtin_exec. rewrite Hc, Hr. reflexivity.
Qed.

(** X10. When reading the stderr buffer at line 67 raises, as it does
    once the evaluated code has closed that buffer, the error leaves the
    [finally] clause: whatever the evaluation did, [execute_code] returns
    no result and raises that error. *)
Theorem unread_stderr_loses_the_result (code test_code : PyVal)
    (s s1 : State) (e' : PyExc) :
  (evaluate rt code test_code (armed s) = Ok tt s1
   \/ exists e, evaluate rt code test_code (armed s) = Exc e s1) ->
  stderr_reply s1 = Throws e' ->
  exists s', execute_code rt code test_code s = Exc e' s'.
Proof.
  intros [H | [e H]] Hr;
    verdict_of (execute_code_verdict code test_code s) H;
    rewrite Hr in V; exact V.
Qed.



End ExecutorFacts.

(** * The executor on MiniPy *)

Module Runs.

Import Examples.



(** What [output] holds is what [getvalue()] answers at line 50: here
    the answer of the function that [plants_getvalue] has set on the
    buffer, not the line it printed. *)
Example planted_getvalue_answers :
  exists r s',
    execute_code py (VStr plants_getvalue) (VStr EmptyString) start = Ok r s'
    /\ stdout_capture s' = "a" ++ nl
    /\ field "passed" r = Some (VBool true)
    /\ field "output" r = Some (VStr "fake").
Proof. eexists _, _. split; [run |]. repeat split. Qed.



(** The order of the rows decides when several match: an error whose
    class derives from both [AssertionError] and [SyntaxError] is a
    "syntax" error. *)
Example first_row_wins :
  classify py
    (mkExc [UserClass "Both"; AssertionError; SyntaxError; Exception;
            BaseException] (Str "both"))
  = Some ("syntax", Str "both").
Proof. reflexivity. Qed.

(** An error whose [__str__] raises: the clause that asks for its text
    raises in turn, and the row yields no result. *)
Example text_of_the_error_can_raise :
  classify py
    (mkExc [UserClass "Mute"; AssertionError; Exception; BaseException]
       (StrRaises (new_exc RuntimeError "no text")))
  = Some ("assertion", StrRaises (new_exc RuntimeError "no text")).
Proof. reflexivity. Qed.



(** Without SIGALRM nothing interrupts the busy loop. *)
Example busy_loop_without_alarm :
  execute_code MiniPy.runtime_without_alarm (VStr "while True: pass")
    (VStr EmptyString) start = Diverge.
Proof. run. Qed.

(** C4 fails on the code: [closes_stdout] runs to its end, line 49 marks
    the run as passed, line 50 raises on the closed buffer, and the
    [except Exception] clause tags the same result "runtime". *)
Lemma closed_stdout_is_passed_and_tagged :
  exists r s' s1,
    execute_code py (VStr closes_stdout) (VStr EmptyString) start = Ok r s'
    /\ evaluate py (VStr closes_stdout) (VStr EmptyString) (armed py start)
       = Ok tt s1
    /\ field "passed" r = Some (VBool true)
    /\ field "error_type" r = Some (VStr "runtime")
    /\ field "error" r = Some (VStr (format_exc py closed_buffer_error)).
Proof.
  eexists _, _, _.
  split; [run |].
  split; [run |].
  repeat split.
Qed.

(** C5 fails on the code: [closes_stderr] runs to its end, and line 67
    raises inside the [finally] clause on the closed buffer.  The alarm
    is off, [test_output] is never set, and [execute_code] returns no
    result; the script answers with the failure of the executor. *)
Lemma closed_stderr_skips_test_output :
  (exists s',
     execute_code py (VStr closes_stderr) (VStr EmptyString) start
     = Exc closed_buffer_error s'
     /\ alarm s' = None
     /\ field "passed" (result s') = Some (VBool true)
     /\ field "test_output" (result s') = Some (VStr EmptyString))
  /\ printed (run_script py (Some closing_request))
     = Some ("{" ++ dq ++ "passed" ++ dq ++ ": false, "
             ++ dq ++ "error" ++ dq ++ ": " ++ dq
             ++ "I/O operation on closed file"
             ++ dq ++ ", " ++ dq ++ "error_type" ++ dq ++ ": "
             ++ dq ++ "executor" ++ dq ++ "}" ++ nl).
Proof.
  split.
  - eexists. split; [run |]. repeat split.
  - run.
Qed.

(** What was written to the standard error before the failure is in
    [test_output]. *)
Example stderr_is_kept_on_failure :
  exists r s',
    execute_code py (VStr chatty) (VStr "assert False") start = Ok r s'
    /\ field "passed" r = Some (VBool false)
    /\ field "test_output" r = Some (VStr ("warn" ++ nl))
    /\ alarm s' = None.
Proof. eexists _, _. split; [run |]. repeat split. Qed.



(** A source that [exec] refuses for another reason than its syntax: a
    NUL character is a [ValueError], and the run is a "runtime" failure. *)
Example null_byte_is_not_a_syntax_error :
  reports py (VStr (String (ascii_of_nat 0) EmptyString)) (VStr EmptyString)
    start "runtime"
    ("Traceback (most recent call last):" ++ nl
     ++ "ValueError: source code string cannot contain null bytes" ++ nl).
Proof. eexists _, _. split; [run |]. repeat split. Qed.



(** A failed assertion that does not leave the test is not a failure of
    the run. *)
Example caught_assertion_passes :
  exists r s',
    execute_code py (VStr "x = 1") (VStr forgiving_test) start = Ok r s'
    /\ field "passed" r = Some (VBool true)
    /\ field "error_type" r = Some VNone.
Proof. eexists _, _. split; [run |]. repeat split. Qed.

(** C8 at work: the test sees the name the candidate binds, and does not
    see it when the candidate does not bind it. *)
Example test_sees_names_of_code :
  (exists r s',
     execute_code py (VStr "x = 1") (VStr "assert x == 1") start = Ok r s'
     /\ field "passed" r = Some (VBool true))
  /\ reports py (VStr EmptyString) (VStr "assert x == 1") start "runtime"
       ("Traceback (most recent call last):" ++ nl
        ++ "NameError: name 'x' is not defined" ++ nl).
Proof.
  split.
  - eexists _, _. split; [run | reflexivity].
  - eexists _, _. split; [run |]. repeat split.
Qed.

(** C9 at work. *)
Lemma malformed_input_witness :
  json_loads py "not json"
  = inr (new_exc JSONDecodeError "Expecting value: line 1 column 1 (char 0)")
  /\ exists s' d,
       run_script py (Some "not json") = Ok tt s'
       /\ d = [ ("passed", VBool false);
                ("error",
                 VStr ("Invalid JSON input: "
                       ++ "Expecting value: line 1 column 1 (char 0)"));
                ("error_type", VStr "input") ]
       /\ console_out s' = json_dumps (VDict d) ++ nl
       /\ field "output" d = None
       /\ field "test_output" d = None.
Proof.
  assert (H : json_loads py "not json"
              = inr (new_exc JSONDecodeError
                       "Expecting value: line 1 column 1 (char 0)"))
    by run.
  split; [exact H |].
  exact (malformed_input py _ _ _ H eq_refl eq_refl).
Defined.

(** C9 as stated fails: [NaN] is not well-formed JSON, [json.loads]
    accepts it all the same, and the answer is the "executor" failure of
    a value that is not an object, not the "input" failure. *)
Lemma nan_is_not_an_input_error :
  json_loads py "NaN" = inl (VFloat "NaN")
  /\ printed (run_script py (Some "NaN"))
     = Some ("{" ++ dq ++ "passed" ++ dq ++ ": false, "
             ++ dq ++ "error" ++ dq ++ ": " ++ dq
             ++ "'float' object has no attribute 'get'"
             ++ dq ++ ", " ++ dq ++ "error_type" ++ dq ++ ": "
             ++ dq ++ "executor" ++ dq ++ "}" ++ nl).
Proof. split; run. Qed.

(** The line the script prints on an input that is rejected. *)
Example malformed_input_line :
  printed (run_script py (Some "not json"))
  = Some ("{" ++ dq ++ "passed" ++ dq ++ ": false, "
          ++ dq ++ "error" ++ dq ++ ": " ++ dq
          ++ "Invalid JSON input: Expecting value: line 1 column 1 (char 0)"
          ++ dq ++ ", " ++ dq ++ "error_type" ++ dq ++ ": "
          ++ dq ++ "input" ++ dq ++ "}" ++ nl).
Proof. run. Qed.

(** C10 at work: an array is not an object. *)
Lemma non_object_input_witness :
  json_loads py "[1, 2]" = inl (VList [VInt 1; VInt 2])
  /\ exists s' d,
       run_script py (Some "[1, 2]") = Ok tt s'
       /\ d = [ ("passed", VBool false);
                ("error", VStr "'list' object has no attribute 'get'");
                ("error_type", VStr "executor") ]
       /\ console_out s' = json_dumps (VDict d) ++ nl.
Proof.
  assert (H : json_loads py "[1, 2]" = inl (VList [VInt 1; VInt 2]))
    by run.
  split; [exact H |].
  exact (non_object_input py _ _ H).
Defined.

(** An object without fields: both sources default to the empty text,
    and the empty program passes. *)
Example empty_object_passes :
  printed (run_script py (Some "{}"))
  = Some ("{" ++ dq ++ "passed" ++ dq ++ ": true, "
          ++ dq ++ "error" ++ dq ++ ": null, "
          ++ dq ++ "error_type" ++ dq ++ ": null, "
          ++ dq ++ "output" ++ dq ++ ": " ++ dq ++ dq ++ ", "
          ++ dq ++ "test_output" ++ dq ++ ": " ++ dq ++ dq ++ "}" ++ nl).
Proof. run. Qed.

(** A request that is an object: the whole exchange. *)
Example request_is_answered :
  printed (run_script py (Some request))
  = Some ("{" ++ dq ++ "passed" ++ dq ++ ": true, "
          ++ dq ++ "error" ++ dq ++ ": null, "
          ++ dq ++ "error_type" ++ dq ++ ": null, "
          ++ dq ++ "output" ++ dq ++ ": " ++ dq ++ dq ++ ", "
          ++ dq ++ "test_output" ++ dq ++ ": " ++ dq ++ dq ++ "}" ++ nl).
Proof. run. Qed.






(** X6 at work: a number where the source is expected. *)
Lemma non_string_code_is_runtime_witness :
  (forall text, VInt 5 <> VStr text)
  /\ reports py (VInt 5) (VStr "print('never')") start "runtime"
       ("Traceback (most recent call last):" ++ nl
        ++ "TypeError: exec() arg 1 must be a string, bytes or code object"
        ++ nl).
Proof.
  assert (H : forall text, VInt 5 <> VStr text) by (intros text; discriminate).
  split; [exact H | exact (non_string_code_is_runtime py _ _ start H)].
Defined.


(** X9 at work: the candidate uses up the alarm, and nothing stops the
    test that loops after it. *)
Lemma alarm_is_armed_once_witness :
  has_SIGALRM py = true
  /\ execute_code py (VStr swallows_timeout) (VStr "while True: pass") start
     = Diverge.
Proof.
  split; [reflexivity |].
  exact (alarm_is_armed_once py (VStr swallows_timeout) "while True: pass"
           start _ _ _ eq_refl eq_refl eq_refl).
Defined.

(** X10 at work: the candidate closes the stderr buffer. *)
Lemma unread_stderr_loses_the_result_witness :
  exists s',
    execute_code py (VStr closes_stderr) (VStr EmptyString) start
    = Exc closed_buffer_error s'.
Proof.
  assert (H : evaluate py (VStr closes_stderr) (VStr EmptyString)
                (armed py start) = Ok tt _) by run.
  exact (unread_stderr_loses_the_result py _ _ start _ _ (or_introl H)
           eq_refl).
Defined.



End Runs.
